(** * classApp: the fullscreen slide viewer of [SlideView.tsx]

    A shallow embedding of the navigation, loading, scaling, rendering and
    blob-materialising logic of
    [src/components/content_views/SlideView.tsx], and the properties of the
    specification that concern it.

    Conventions.
    - A JavaScript [number] that holds a pixel coordinate, a size or a scale
      is a rational [Q] (exact arithmetic; the comparisons of the source are
      against the constants 0, 25, 50, 75 and 300).  Page numbers and
      millisecond time stamps are integers [Z].  The size of a viewport is
      the pair of numbers that the PDF engine computed, an input of the
      renderer; the width and the height of a canvas are the whole numbers
      that the canvas stores.
    - A React state cell is a record field; [setX(f)] with a functional
      updater applies [f] to the field.  A handler reads the values of the
      render that created it; React re-renders after every discrete event,
      so a handler sees the state left by the previous event.
    - An [async] function is cut at its [await]s; how an awaited promise
      settles is an input ([Settled]). *)

From Stdlib Require Import ZArith QArith Qminmax Lqa List String Ascii Bool Lia.
Import ListNotations.

Local Open Scope Z_scope.

(** ** JavaScript values *)

Module Js.

(** [number | null], as the state cells [touchStart] and [touchEnd]. *)
Definition nullable := option Q.

(** [!!v]: [null] and [0] are falsy, every other number is truthy. *)
Definition truthy (v : nullable) : bool :=
  match v with
  | None => false
  | Some x => negb (Qeq_bool x 0)
  end.

(** The number a [number | null] stands for in arithmetic ([null] is 0). *)
Definition toNumber (v : nullable) : Q :=
  match v with
  | None => 0%Q
  | Some x => x
  end.

(** [x < y] and [x <= y] on numbers. *)
Definition ltb (x y : Q) : bool := negb (Qle_bool y x).
Definition leb (x y : Q) : bool := Qle_bool x y.

(** How a promise settles. *)
Inductive Settled (A E : Type) : Type :=
| Fulfilled (a : A)
| Rejected (e : E).
Arguments Fulfilled {A E} a.
Arguments Rejected {A E} e.

End Js.

(** ** Navigation controller: [FullscreenSlideViewer] *)

Module Navigation.

(** The state cells of [FullscreenSlideViewer] that the handlers read or
    write.  [viewerRef] tells whether the ref of the content area is
    attached; [closed] records that [onClose] was called (the parent then
    unmounts the viewer). *)
Record Viewer : Type := mkViewer {
  currentSlide : Z;
  totalSlides : Z;
  touchStart : Js.nullable;
  touchEnd : Js.nullable;
  lastClickTime : Z;
  viewerRef : bool;
  closed : bool
}.

(** [useState] initial values; [lastClickTime] starts at 0. *)
Definition initial : Viewer :=
  mkViewer 1 1 None None 0 true false.

Definition setCurrentSlide (f : Z -> Z) (s : Viewer) : Viewer :=
  mkViewer (f (currentSlide s)) (totalSlides s) (touchStart s) (touchEnd s)
           (lastClickTime s) (viewerRef s) (closed s).

Definition setTotalSlides (n : Z) (s : Viewer) : Viewer :=
  mkViewer (currentSlide s) n (touchStart s) (touchEnd s)
           (lastClickTime s) (viewerRef s) (closed s).

Definition setTouchStart (v : Js.nullable) (s : Viewer) : Viewer :=
  mkViewer (currentSlide s) (totalSlides s) v (touchEnd s)
           (lastClickTime s) (viewerRef s) (closed s).

Definition setTouchEnd (v : Js.nullable) (s : Viewer) : Viewer :=
  mkViewer (currentSlide s) (totalSlides s) (touchStart s) v
           (lastClickTime s) (viewerRef s) (closed s).

Definition setLastClickTime (t : Z) (s : Viewer) : Viewer :=
  mkViewer (currentSlide s) (totalSlides s) (touchStart s) (touchEnd s)
           t (viewerRef s) (closed s).

(** [onClose()]: the parent's [setFullscreenMode(false)]. *)
Definition onClose (s : Viewer) : Viewer :=
  mkViewer (currentSlide s) (totalSlides s) (touchStart s) (touchEnd s)
           (lastClickTime s) (viewerRef s) true.

Definition minSwipeDistance : Q := 50.

(** [onTouchStart]: [setTouchEnd(null); setTouchStart(clientX)]. *)
Definition onTouchStart (clientX : Q) (s : Viewer) : Viewer :=
  setTouchStart (Some clientX) (setTouchEnd None s).

(** [onTouchMove]: [setTouchEnd(clientX)]. *)
Definition onTouchMove (clientX : Q) (s : Viewer) : Viewer :=
  setTouchEnd (Some clientX) s.

(** [onTouchEnd].  The two guards read [currentSlide] and [totalSlides] of
    the render; the updaters act on the state cell. *)
Definition onTouchEnd (s : Viewer) : Viewer :=
  if negb (Js.truthy (touchStart s)) || negb (Js.truthy (touchEnd s)) then s
  else
    let distance := (Js.toNumber (touchStart s) - Js.toNumber (touchEnd s))%Q in
    let isLeftSwipe := Js.ltb minSwipeDistance distance in
    let isRightSwipe := Js.ltb distance (- minSwipeDistance)%Q in
    let s1 :=
      if isLeftSwipe && (currentSlide s <? totalSlides s)
      then setCurrentSlide (fun prev => prev + 1) s
      else s in
    if isRightSwipe && (1 <? currentSlide s)
    then setCurrentSlide (fun prev => prev - 1) s1
    else s1.

(** [handleKeyPress], on [e.key]. *)
Definition handleKeyPress (key : string) (s : Viewer) : Viewer :=
  if (key =? "ArrowLeft")%string || (key =? "ArrowUp")%string then
    setCurrentSlide (fun prev => Z.max 1 (prev - 1)) s
  else if (key =? "ArrowRight")%string || (key =? "ArrowDown")%string then
    setCurrentSlide (fun prev => Z.min (totalSlides s) (prev + 1)) s
  else if (key =? "Escape")%string then
    onClose s
  else s.

(** [handleDoubleClick]; [currentTime] is [new Date().getTime()]. *)
Definition handleDoubleClick (currentTime : Z) (s : Viewer) : Viewer :=
  let s1 := if currentTime - lastClickTime s <? 300 then onClose s else s in
  setLastClickTime currentTime s1.

(** What [handleClickNavigation] reads of a mouse event: [e.clientX] and
    the bounding rectangle of [e.currentTarget].  [timeStamp] is the time
    of the event, which no handler reads. *)
Record MouseEvent : Type := mkMouseEvent {
  timeStamp : Z;
  clientX : Q;
  rectLeft : Q;
  rectWidth : Q
}.

Definition clickX (e : MouseEvent) : Q := (clientX e - rectLeft e)%Q.

Definition clickPercentage (e : MouseEvent) : Q :=
  ((clickX e / rectWidth e) * 100)%Q.

(** [handleClickNavigation]. *)
Definition handleClickNavigation (e : MouseEvent) (s : Viewer) : Viewer :=
  if negb (viewerRef s) then s
  else if Js.leb (clickPercentage e) 25 then
    setCurrentSlide (fun prev => Z.max 1 (prev - 1)) s
  else if Js.leb 75 (clickPercentage e) then
    setCurrentSlide (fun prev => Z.min (totalSlides s) (prev + 1)) s
  else s.

(** [handlePdfLoad]: [setTotalSlides(pdf.numPages); setCurrentSlide(1)]. *)
Definition handlePdfLoad (numPages : Z) (s : Viewer) : Viewer :=
  setCurrentSlide (fun _ => 1) (setTotalSlides numPages s).

(** The input events the mounted viewer listens to.  [Click] is a click on
    the content area outside the Close button.  [CloseClick] is a click on
    the Close button of the overlay, which lies inside the content area:
    the button's [onClick={onClose}] runs, then the click bubbles to the
    content area and runs [handleClickNavigation]. *)
Inductive Event : Type :=
| TouchStart (clientX : Q)
| TouchMove (clientX : Q)
| TouchEnd
| KeyDown (key : string)
| Click (e : MouseEvent)
| CloseClick (e : MouseEvent)
| DblClick (currentTime : Z).

Definition step (s : Viewer) (ev : Event) : Viewer :=
  match ev with
  | TouchStart x => onTouchStart x s
  | TouchMove x => onTouchMove x s
  | TouchEnd => onTouchEnd s
  | KeyDown k => handleKeyPress k s
  | Click e => handleClickNavigation e s
  | CloseClick e => handleClickNavigation e (onClose s)
  | DblClick t => handleDoubleClick t s
  end.

Definition run (s : Viewer) (evs : list Event) : Viewer :=
  fold_left step evs s.

(** The browser delivers a double click as two [click] events followed by
    one [dblclick] event on the same target. *)
Definition doubleClick (e1 e2 : MouseEvent) : list Event :=
  [Click e1; Click e2; DblClick (timeStamp e2)].

(** A gesture: the finger goes down at [x0], moves to [x1] and lifts. *)
Definition swipe (x0 x1 : Q) : list Event :=
  [TouchStart x0; TouchMove x1; TouchEnd].

(** The page transition a gesture asks for, as the handlers classify it. *)
Inductive Nav : Type := Prev | Next | Stay.

Definition gesture (s : Viewer) (ev : Event) : Nav :=
  match ev with
  | TouchStart _ | TouchMove _ | DblClick _ => Stay
  | TouchEnd =>
      if Js.truthy (touchStart s) && Js.truthy (touchEnd s) then
        let distance := (Js.toNumber (touchStart s) - Js.toNumber (touchEnd s))%Q in
        if Js.ltb minSwipeDistance distance then Next
        else if Js.ltb distance (- minSwipeDistance)%Q then Prev
        else Stay
      else Stay
  | KeyDown k =>
      if (k =? "ArrowLeft")%string || (k =? "ArrowUp")%string then Prev
      else if (k =? "ArrowRight")%string || (k =? "ArrowDown")%string then Next
      else Stay
  | Click e | CloseClick e =>
      if negb (viewerRef s) then Stay
      else if Js.leb (clickPercentage e) 25 then Prev
      else if Js.leb 75 (clickPercentage e) then Next
      else Stay
  end.

(** The zone of a click, by its position on the surface. *)
Definition zone (e : MouseEvent) : Nav :=
  if Js.leb (clickPercentage e) 25 then Prev
  else if Js.leb 75 (clickPercentage e) then Next
  else Stay.

(** The clamped transitions of the state machine. *)
Definition navigate (n : Nav) (pageCount page : Z) : Z :=
  match n with
  | Prev => Z.max 1 (page - 1)
  | Next => Z.min pageCount (page + 1)
  | Stay => page
  end.

Definition inRange (s : Viewer) : Prop :=
  1 <= currentSlide s <= totalSlides s.

End Navigation.

(** ** The rendering engine ([pdfjs-dist]) as the viewer uses it *)

Module Pdf.

(** What a rejected promise or a [catch] clause carries.  The engine
    rejects the promise of a render task on which [cancel()] was called
    with a [RenderingCancelledException]; every other failure is an
    [Error] with a message. *)
Inductive Exn : Type :=
| RenderingCancelledException
| Error (message : string).

(** A page: the width and height of [page.getViewport({ scale: 1.0 })]. *)
Record Page : Type := mkPage {
  pageWidth : Q;
  pageHeight : Q
}.

(** A viewport of a page, [page.getViewport({ scale })]: its [width] and
    [height], the numbers the engine computed. *)
Record Viewport : Type := mkViewport {
  viewportWidth : Q;
  viewportHeight : Q
}.

(** The viewport that an engine with exact arithmetic gives: the size of
    the page times the scale. *)
Definition exactViewport (page : Page) (scale : Q) : Viewport :=
  mkViewport (pageWidth page * scale)%Q (pageHeight page * scale)%Q.

(** A loaded document, with the locator it was loaded from. *)
Record Document : Type := mkDocument {
  source : string;
  pages : list Page
}.

Definition numPages (d : Document) : Z := Z.of_nat (List.length (pages d)).

(** [pdfDoc.getPage(n)]: pages are numbered from 1; a number out of range
    rejects. *)
Definition getPage (d : Document) (n : Z) : Js.Settled Page Exn :=
  if (1 <=? n) && (n <=? numPages d) then
    match nth_error (pages d) (Z.to_nat (n - 1)) with
    | Some p => Js.Fulfilled p
    | None => Js.Rejected (Error "Invalid page request.")
    end
  else Js.Rejected (Error "Invalid page request.").

(** [console.error(label, error)]. *)
Inductive LogEntry : Type :=
| ConsoleError (label : string) (error : Exn).

End Pdf.

(** ** Document loader: the first effect of [SlidePdfViewer] *)

Module Loader.

(** [url] is the prop, [pdfDoc] the state cell, [viewer] the parent's
    state that [onPdfLoad] writes, [pending] the locators of the calls of
    [loadPdf] that still wait for the engine (oldest first). *)
Record State : Type := mkState {
  url : string;
  pdfDoc : option Pdf.Document;
  viewer : Navigation.Viewer;
  pending : list string;
  console : list Pdf.LogEntry
}.

(** The effect body: [if (!url) return; loadPdf()].  The empty string is
    falsy.  The effect returns no cleanup. *)
Definition effect (st : State) : State :=
  if (url st =? "")%string then st
  else mkState (url st) (pdfDoc st) (viewer st)
               (pending st ++ [url st]) (console st).

Definition mount (u : string) (v : Navigation.Viewer) : State :=
  effect (mkState u None v [] []).

(** A render with a new [url] prop: the effect runs again when the
    dependency changed. *)
Definition setUrl (u : string) (st : State) : State :=
  if (u =? url st)%string then st
  else effect (mkState u (pdfDoc st) (viewer st) (pending st) (console st)).

Fixpoint remove_nth {A : Type} (i : nat) (l : list A) : list A :=
  match i, l with
  | _, [] => []
  | O, _ :: t => t
  | S j, h :: t => h :: remove_nth j t
  end.

(** The continuation of [loadPdf] after [await loadingTask.promise], for
    the [i]-th pending load: [setPdfDoc(pdf); onPdfLoad(pdf)] or the
    [catch] clause. *)
Definition loadPdf_resume (i : nat) (outcome : Js.Settled (list Pdf.Page) Pdf.Exn)
           (st : State) : State :=
  match nth_error (pending st) i with
  | None => st
  | Some u =>
      match outcome with
      | Js.Fulfilled ps =>
          let pdf := Pdf.mkDocument u ps in
          mkState (url st) (Some pdf)
                  (Navigation.handlePdfLoad (Pdf.numPages pdf) (viewer st))
                  (remove_nth i (pending st)) (console st)
      | Js.Rejected error =>
          mkState (url st) (pdfDoc st) (viewer st)
                  (remove_nth i (pending st))
                  (Pdf.ConsoleError "Error loading PDF:" error :: console st)
      end
  end.

Inductive Event : Type :=
| SetUrl (u : string)
| Settle (i : nat) (outcome : Js.Settled (list Pdf.Page) Pdf.Exn).

Definition step (st : State) (ev : Event) : State :=
  match ev with
  | SetUrl u => setUrl u st
  | Settle i o => loadPdf_resume i o st
  end.

Definition run (st : State) (evs : list Event) : State :=
  fold_left step evs st.

(** The locator the loaded document came from. *)
Definition loadedSource (st : State) : option string :=
  option_map Pdf.source (pdfDoc st).

End Loader.

(** ** Scale calculator: the second effect of [SlidePdfViewer] *)

Module Scale.

(** [containerRef.current]: its [clientWidth] and [clientHeight]. *)
Record Container : Type := mkContainer {
  clientWidth : Q;
  clientHeight : Q
}.

(** The callback of [pdfDoc.getPage(currentSlide).then(...)]: the value
    given to [setScale]. *)
Definition optimalScale (container : Container) (page : Pdf.Page) : Q :=
  let containerWidth := clientWidth container in
  let containerHeight := clientHeight container in
  let pageWidth := Pdf.pageWidth page in
  let pageHeight := Pdf.pageHeight page in
  let scaleX := (containerWidth / pageWidth)%Q in
  let scaleY := (containerHeight / pageHeight)%Q in
  Qmin scaleX scaleY.

(** [calculateOptimalScale]: the [scale] cell after the call, [scale]
    being its value before.  Nothing is set when the document or the
    container is missing, or when [getPage] rejects. *)
Definition calculateOptimalScale (pdfDoc : option Pdf.Document)
           (containerRef : option Container) (currentSlide : Z) (scale : Q) : Q :=
  match pdfDoc, containerRef with
  | Some doc, Some container =>
      match Pdf.getPage doc currentSlide with
      | Js.Fulfilled page => optimalScale container page
      | Js.Rejected _ => scale
      end
  | _, _ => scale
  end.

End Scale.

(** ** Page renderer: the third effect of [SlidePdfViewer] *)

Module Renderer.

(** What the canvas shows: nothing, or a page drawn at a scale. *)
Inductive Bitmap : Type :=
| Blank
| Frame (page : Z) (scale : Q).

(** A canvas: its [width] and [height], which are integers
    ([unsigned long]), and its bitmap. *)
Record Canvas : Type := mkCanvas {
  width : Z;
  height : Z;
  bitmap : Bitmap
}.

(** The integer part of a number, towards zero. *)
Definition integerPart (x : Q) : Z := Z.quot (Qnum x) (Zpos (Qden x)).

(** A number converted to an [unsigned long]: its integer part modulo
    2^32. *)
Definition toUnsignedLong (x : Q) : Z := (integerPart x) mod 4294967296.

(** What an assignment of the number [x] to [canvas.width] or
    [canvas.height] stores: [x] as an [unsigned long], or the default of
    the attribute when that is above 2147483647. *)
Definition canvasDimension (default : Z) (x : Q) : Z :=
  let n := toUnsignedLong x in
  if n <=? 2147483647 then n else default.

(** Assigning [canvas.height] or [canvas.width] resets the bitmap of an
    HTML canvas, also when the value does not change.  The defaults are
    150 for the height and 300 for the width. *)
Definition setHeight (h : Q) (c : Canvas) : Canvas :=
  mkCanvas (width c) (canvasDimension 150 h) Blank.
Definition setWidth (w : Q) (c : Canvas) : Canvas :=
  mkCanvas (canvasDimension 300 w) (height c) Blank.

(** A render task of the engine: the page and scale it draws, and whether
    [cancel()] was called on it. *)
Record RenderTask : Type := mkRenderTask {
  taskPage : Z;
  taskScale : Q;
  cancelled : bool
}.

(** [canvas] is [canvasRef.current], [hasContext] tells whether
    [getContext('2d')] gives a context, [renderTaskRef] is the ref cell
    (an index into [tasks], the tasks the engine was asked for). *)
Record State : Type := mkState {
  canvas : Canvas;
  hasContext : bool;
  renderTaskRef : option nat;
  tasks : list RenderTask;
  console : list Pdf.LogEntry
}.

Definition setCanvas (c : Canvas) (st : State) : State :=
  mkState c (hasContext st) (renderTaskRef st) (tasks st) (console st).

Definition setRenderTaskRef (r : option nat) (st : State) : State :=
  mkState (canvas st) (hasContext st) r (tasks st) (console st).

Definition setTasks (ts : list RenderTask) (st : State) : State :=
  mkState (canvas st) (hasContext st) (renderTaskRef st) ts (console st).

Definition consoleError (label : string) (error : Pdf.Exn) (st : State) : State :=
  mkState (canvas st) (hasContext st) (renderTaskRef st) (tasks st)
          (Pdf.ConsoleError label error :: console st).

Fixpoint cancelNth (i : nat) (ts : list RenderTask) : list RenderTask :=
  match i, ts with
  | _, [] => []
  | O, t :: r => mkRenderTask (taskPage t) (taskScale t) true :: r
  | S j, t :: r => t :: cancelNth j r
  end.

(** A computation of the body of [renderPage]: it runs on the state and
    returns a value or throws. *)
Definition Eff (A : Type) : Type := State -> Js.Settled A Pdf.Exn * State.

Definition ret {A : Type} (a : A) : Eff A := fun st => (Js.Fulfilled a, st).

Definition bind {A B : Type} (m : Eff A) (k : A -> Eff B) : Eff B :=
  fun st =>
    match m st with
    | (Js.Fulfilled a, st') => k a st'
    | (Js.Rejected e, st') => (Js.Rejected e, st')
    end.

Definition modify (f : State -> State) : Eff unit :=
  fun st => (Js.Fulfilled tt, f st).

Definition get : Eff State := fun st => (Js.Fulfilled st, st).

(** [await p] inside the body, once [p] has settled. *)
Definition await {A : Type} (p : Js.Settled A Pdf.Exn) : Eff A :=
  fun st => (p, st).

(** [try { body } catch (error) { handler }]. *)
Definition tryCatch {A : Type} (body : Eff A) (handler : Pdf.Exn -> Eff A) : Eff A :=
  fun st =>
    match body st with
    | (Js.Fulfilled a, st') => (Js.Fulfilled a, st')
    | (Js.Rejected e, st') => handler e st'
    end.

Notation "x <- m ;; k" := (bind m (fun x => k))
  (at level 61, m at next level, right associativity).
Notation "m ;;; k" := (bind m (fun _ => k))
  (at level 61, right associativity).

(** Where a call of [renderPage] stands after one of its segments. *)
Inductive Progress : Type :=
| AwaitingRender (task : nat)
| Returned.

(** The [catch] clause of [renderPage]. *)
Definition catchClause (error : Pdf.Exn) : Eff Progress :=
  modify (consoleError "Error rendering page:" error) ;;; ret Returned.

(** [renderTaskRef.current.cancel()], when the ref holds a task. *)
Definition cancelPrevious : Eff unit :=
  st <- get ;;
  match renderTaskRef st with
  | Some i => modify (setTasks (cancelNth i (tasks st)))
  | None => ret tt
  end.

(** [page.render(renderContext)]: the engine creates a task. *)
Definition render (currentSlide : Z) (scale : Q) : Eff nat :=
  st <- get ;;
  modify (setTasks (tasks st ++ [mkRenderTask currentSlide scale false])) ;;;
  ret (List.length (tasks st)).

(** First segment of [renderPage], up to [await pdfDoc.getPage(...)]. *)
Definition renderPage_start : Eff unit :=
  tryCatch cancelPrevious
           (fun error => modify (consoleError "Error rendering page:" error)).

(** Second segment: from the settled [getPage] up to
    [await renderTask.promise].  [getViewport] is the engine's
    [page.getViewport({ scale })]. *)
Definition renderPage_gotPage (getViewport : Pdf.Page -> Q -> Pdf.Viewport)
           (currentSlide : Z) (scale : Q)
           (outcome : Js.Settled Pdf.Page Pdf.Exn) : Eff Progress :=
  tryCatch
    (page <- await outcome ;;
     let viewport := getViewport page scale in
     st <- get ;;
     if hasContext st then
       modify (fun st => setCanvas (setHeight (Pdf.viewportHeight viewport) (canvas st)) st) ;;;
       modify (fun st => setCanvas (setWidth (Pdf.viewportWidth viewport) (canvas st)) st) ;;;
       renderTask <- render currentSlide scale ;;
       modify (setRenderTaskRef (Some renderTask)) ;;;
       ret (AwaitingRender renderTask)
     else ret Returned)
    catchClause.

(** Third segment: from the settled [renderTask.promise] to the end. *)
Definition renderPage_rendered (outcome : Js.Settled unit Pdf.Exn) : Eff Progress :=
  tryCatch
    (await outcome ;;;
     modify (setRenderTaskRef None) ;;;
     ret Returned)
    catchClause.

(** The engine settles the promise of task [i]: a cancelled task rejects
    with [RenderingCancelledException]; otherwise the task ends as
    [result] says, and a task that ends well has drawn its page.  A task
    that fails or is cancelled is taken to leave the canvas as it is. *)
Definition settleTask (i : nat) (result : Js.Settled unit Pdf.Exn)
           (st : State) : Js.Settled unit Pdf.Exn * State :=
  match nth_error (tasks st) i with
  | None => (result, st)
  | Some t =>
      if cancelled t then (Js.Rejected Pdf.RenderingCancelledException, st)
      else
        match result with
        | Js.Fulfilled _ =>
            (result,
             setCanvas (mkCanvas (width (canvas st)) (height (canvas st))
                                 (Frame (taskPage t) (taskScale t))) st)
        | Js.Rejected _ => (result, st)
        end
  end.

(** A whole call of [renderPage] that nothing interleaves with: the page
    lookup settles as [pageOutcome], the task ends as [result]. *)
Definition renderPage (getViewport : Pdf.Page -> Q -> Pdf.Viewport)
           (currentSlide : Z) (scale : Q)
           (pageOutcome : Js.Settled Pdf.Page Pdf.Exn)
           (result : Js.Settled unit Pdf.Exn) : Eff Progress :=
  fun st =>
    let st1 := snd (renderPage_start st) in
    match renderPage_gotPage getViewport currentSlide scale pageOutcome st1 with
    | (Js.Fulfilled (AwaitingRender i), st2) =>
        let (o, st3) := settleTask i result st2 in
        renderPage_rendered o st3
    | r => r
    end.

End Renderer.

(** ** Blob materializer: the hook [useBase64ToBlobUrl] *)

Module Blob.

Definition pdfPrefix : string := "data:application/pdf".

(** [s.startsWith(p)]. *)
Definition startsWith (s p : string) : bool := String.prefix p s.

(** [s.split(sep)] for a separator of one character. *)
Fixpoint split (sep : ascii) (s : string) : list string :=
  match s with
  | EmptyString => [EmptyString]
  | String c r =>
      if Ascii.eqb c sep then EmptyString :: split sep r
      else
        match split sep r with
        | h :: t => String c h :: t
        | [] => [String c EmptyString]
        end
  end.

(** [parts[1]] as the argument of [atob]: a missing element is
    [undefined], which [atob] turns into the string "undefined". *)
Definition argument (parts : list string) : string :=
  match nth_error parts 1 with
  | Some base64 => base64
  | None => "undefined"
  end.

Definition isAsciiWhitespace (c : ascii) : bool :=
  let n := N_of_ascii c in
  ((n =? 9) || (n =? 10) || (n =? 12) || (n =? 13) || (n =? 32))%N.

(** The value of a character of the base64 alphabet. *)
Definition sextet (c : ascii) : option N :=
  let n := N_of_ascii c in
  (if (65 <=? n) && (n <=? 90) then Some (n - 65)
   else if (97 <=? n) && (n <=? 122) then Some (n - 71)
   else if (48 <=? n) && (n <=? 57) then Some (n + 4)
   else if n =? 43 then Some 62
   else if n =? 47 then Some 63
   else None)%N.

Fixpoint sextets (data : list ascii) : option (list N) :=
  match data with
  | [] => Some []
  | c :: r =>
      match sextet c, sextets r with
      | Some v, Some vs => Some (v :: vs)
      | _, _ => None
      end
  end.

Definition byte (n : N) : ascii := ascii_of_N (n mod 256).

(** Groups of four sextets give three bytes; a rest of three gives two
    bytes, a rest of two gives one. *)
Fixpoint bytesOfSextets (l : list N) : list ascii :=
  match l with
  | a :: b :: c :: d :: r =>
      let n := (a * 262144 + b * 4096 + c * 64 + d)%N in
      byte (n / 65536) :: byte (n / 256) :: byte n :: bytesOfSextets r
  | [a; b; c] =>
      let n := ((a * 4096 + b * 64 + c) / 4)%N in
      [byte (n / 256); byte n]
  | [a; b] =>
      let n := ((a * 64 + b) / 16)%N in
      [byte n]
  | _ => []
  end.

Definition equalsSign : ascii := "="%char.

(** One or two trailing [=] are dropped when the length is a multiple
    of four. *)
Definition stripPadding (data : list ascii) : list ascii :=
  if (Nat.modulo (List.length data) 4 =? 0)%nat then
    match rev data with
    | p :: q :: r =>
        if Ascii.eqb p equalsSign then
          if Ascii.eqb q equalsSign then rev r else rev (q :: r)
        else data
    | [p] => if Ascii.eqb p equalsSign then [] else data
    | [] => data
    end
  else data.

(** [atob]: the forgiving base64 decoding of the HTML standard; [None]
    is the [InvalidCharacterError] it throws. *)
Definition atob (s : string) : option (list ascii) :=
  let data := filter (fun c => negb (isAsciiWhitespace c)) (list_ascii_of_string s) in
  let data := stripPadding data in
  if (Nat.modulo (List.length data) 4 =? 1)%nat then None
  else option_map bytesOfSextets (sextets data).

(** The decoding step of the hook: [atob(base64String.split(',')[1])]. *)
Definition decode (base64String : string) : option (list ascii) :=
  atob (argument (split ","%char base64String)).

(** The state cell [blobUrl], and the callback that [setTimeout] holds
    with the [base64String] of its closure. *)
Record State : Type := mkState {
  blobUrl : option string;
  timer : option string
}.

Definition initial : State := mkState None None.

Section Hook.

(** [URL.createObjectURL(new Blob([bytes], ...))]. *)
Variable createObjectURL : list ascii -> string.

(** The [try] block of the timer callback; [None] when it throws. *)
Definition tryBlock (base64String : string) : option string :=
  match decode base64String with
  | Some bytes => Some (createObjectURL bytes)
  | None => None
  end.

(** The effect, run for a (new) [base64String]: the cleanup of the
    previous run clears its timer. *)
Definition effect (base64String : option string) (st : State) : State :=
  match base64String with
  | None => mkState None None
  | Some s =>
      if (s =? "")%string || negb (startsWith s pdfPrefix)
      then mkState None None
      else mkState (blobUrl st) (Some s)
  end.

(** The timer callback: [try { ... setBlobUrl(url) }
    catch (e) { setBlobUrl(base64String) }]. *)
Definition timerFires (st : State) : State :=
  match timer st with
  | None => st
  | Some base64String =>
      match tryBlock base64String with
      | Some url => mkState (Some url) None
      | None => mkState (Some base64String) None
      end
  end.

(** What the hook returns once its timer has run. *)
Definition useBase64ToBlobUrl (base64String : option string) : option string :=
  blobUrl (timerFires (effect base64String initial)).

End Hook.

End Blob.

(** ** The saved-slide preview: [SavedSlideViewer] inside [SlideView] *)

Module Preview.

(** [fullscreenMode] is the state cell of [SlideView]; [pdfUrl] and
    [lastClickTime] are those of [SavedSlideViewer]. *)
Record State : Type := mkState {
  fullscreenMode : bool;
  pdfUrl : option string;
  lastClickTime : Z
}.

(** [onExpand]: [() => setFullscreenMode(true)]. *)
Definition onExpand (st : State) : State :=
  mkState true (pdfUrl st) (lastClickTime st).

(** [handleDoubleClick]. *)
Definition handleDoubleClick (currentTime : Z) (st : State) : State :=
  let st1 := if currentTime - lastClickTime st <? 300 then onExpand st else st in
  mkState (fullscreenMode st1) (pdfUrl st1) currentTime.

(** The events of the preview area, which is rendered only when [pdfUrl]
    is set: [onClick={onExpand}] and [onDoubleClick={handleDoubleClick}]. *)
Inductive Event : Type :=
| Click
| DblClick (currentTime : Z).

Definition step (st : State) (ev : Event) : State :=
  match pdfUrl st with
  | None => st
  | Some _ =>
      match ev with
      | Click => onExpand st
      | DblClick t => handleDoubleClick t st
      end
  end.

Definition run (st : State) (evs : list Event) : State :=
  fold_left step evs st.

End Preview.

(** ** Strings as the upload form uses them

    A string is a sequence of code units below 256; the functions below are
    the JavaScript string methods on such strings. *)

Module Text.

(** The code units below 256 that [\s] matches and [trim] strips. *)
Definition isSpace (c : ascii) : bool :=
  let n := N_of_ascii c in
  ((n =? 9) || (n =? 10) || (n =? 11) || (n =? 12) || (n =? 13)
   || (n =? 32) || (n =? 160))%N.

(** A string in a condition: the empty string is falsy. *)
Definition truthy (s : string) : bool := negb (s =? "")%string.

Fixpoint trimStart (s : string) : string :=
  match s with
  | EmptyString => EmptyString
  | String c r => if isSpace c then trimStart r else s
  end.

(** [s] without its trailing white space. *)
Fixpoint trimEnd (s : string) : string :=
  match s with
  | EmptyString => EmptyString
  | String c r =>
      match trimEnd r with
      | EmptyString => if isSpace c then EmptyString else String c EmptyString
      | t => String c t
      end
  end.

(** [s.trim()]. *)
Definition trim (s : string) : string := trimEnd (trimStart s).

(** [s.replace(/\s+/g, '')]. *)
Fixpoint removeSpaces (s : string) : string :=
  match s with
  | EmptyString => EmptyString
  | String c r => if isSpace c then removeSpaces r else String c (removeSpaces r)
  end.

Definition lowerChar (c : ascii) : ascii :=
  let n := N_of_ascii c in
  (if ((65 <=? n) && (n <=? 90))
      || ((192 <=? n) && (n <=? 222) && negb (n =? 215))
   then ascii_of_N (n + 32)
   else c)%N.

(** [s.toLowerCase()]. *)
Fixpoint toLowerCase (s : string) : string :=
  match s with
  | EmptyString => EmptyString
  | String c r => String (lowerChar c) (toLowerCase r)
  end.

(** [s.split(sep)] for a separator that is not empty; [skip] counts the
    code units of a separator just matched that are still to be passed. *)
Fixpoint splitOn (sep : string) (skip : nat) (s : string) : list string :=
  match s with
  | EmptyString => [EmptyString]
  | String c r =>
      match skip with
      | S k => splitOn sep k r
      | O =>
          if String.prefix sep s
          then EmptyString :: splitOn sep (String.length sep - 1) r
          else
            match splitOn sep 0 r with
            | h :: t => String c h :: t
            | [] => [String c EmptyString]
            end
      end
  end.

Definition split (sep : string) (s : string) : list string := splitOn sep 0 s.

(** [s.slice(-n)]: the last [n] code units, or all of [s]. *)
Definition sliceLast (n : nat) (s : string) : string :=
  String.substring (String.length s - n) n s.

(** [s.endsWith(t)]. *)
Definition endsWith (s t : string) : bool :=
  (String.substring (String.length s - String.length t) (String.length t) s =? t)%string
  && (String.length t <=? String.length s)%nat.

End Text.

(** ** The title and folder of an upload: [fetchTitleAndPath] *)

Module TitlePath.

(** An entry of the hierarchy as the API returns it. *)
Record Item : Type := mkItem {
  _id : string;
  name : string
}.

(** The calls of [services/api] that the effect makes.  [None] is a
    rejected promise; the breadcrumbs may be [null]. *)
Record Api : Type := mkApi {
  getBreadcrumbs : string -> option (option string);
  getClasses : option (list Item);
  getSubjectsByClassId : string -> option (list Item);
  getUnitsBySubjectId : string -> option (list Item);
  getSubUnitsByUnitId : string -> option (list Item);
  getLessonsBySubUnitId : string -> option (list Item)
}.

(** The variables of the second strategy. *)
Record Search : Type := mkSearch {
  foundLevel : bool;
  breadcrumbParts : list string;
  fileName : string
}.

(** [items.find(x => x._id === lessonId)]. *)
Definition findById (lessonId : string) (items : list Item) : option Item :=
  find (fun x => (_id x =? lessonId)%string) items.

(** [`../uploads/${parts[0]}/${cleanSubjectNameLower}/${cleanUnitNameFormatted}/Slides/${fileName}.pdf`];
    [None] when [parts[1]] or [parts[2]] is [undefined] and the method call
    on it throws.  A missing [parts[0]] prints as "undefined". *)
Definition virtualPath (parts : list string) (fileName : string) : option string :=
  match nth_error parts 1, nth_error parts 2 with
  | Some subject, Some unit =>
      let cleanSubjectNameLower := Text.removeSpaces (Text.toLowerCase subject) in
      let cleanUnitNameFormatted := Text.removeSpaces unit in
      Some ("../uploads/" ++ nth 0 parts "undefined" ++ "/" ++ cleanSubjectNameLower
            ++ "/" ++ cleanUnitNameFormatted ++ "/Slides/" ++ fileName ++ ".pdf")%string
  | _, _ => None
  end.

(** The parts of a breadcrumb string:
    [breadcrumbs.split(' > ').filter(part => part.trim())]. *)
Definition breadcrumbSplit (breadcrumbs : string) : list string :=
  filter (fun part => Text.truthy (Text.trim part)) (Text.split " > " breadcrumbs).

Section Strategies.

Variable api : Api.
Variable lessonId : string.

(** The innermost loop: the lessons of the sub-units of [unitItem]. *)
Fixpoint lessonsLoop (classItem subject unitItem : Item) (subUnits : list Item)
         (st : Search) : option Search :=
  match subUnits with
  | [] => Some st
  | subUnitItem :: rest =>
      match getLessonsBySubUnitId api (_id subUnitItem) with
      | None => None
      | Some lessons =>
          match findById lessonId lessons with
          | Some lesson =>
              Some (mkSearch true
                             [name classItem; name subject; name unitItem;
                              name subUnitItem; name lesson]
                             (name lesson))
          | None => lessonsLoop classItem subject unitItem rest st
          end
      end
  end.

(** The loop over the units of a subject.  A sub-unit that matches ends
    the loop; a lesson that matches ends only the loop over the sub-units,
    and the next units are still looked at (their lessons are not). *)
Fixpoint unitsLoop (classItem subject : Item) (units : list Item)
         (st : Search) : option Search :=
  match units with
  | [] => Some st
  | unitItem :: rest =>
      match getSubUnitsByUnitId api (_id unitItem) with
      | None => None
      | Some subUnits =>
          match findById lessonId subUnits with
          | Some subUnit =>
              Some (mkSearch true
                             [name classItem; name subject; name unitItem;
                              name subUnit]
                             (name subUnit))
          | None =>
              match (if negb (foundLevel st)
                     then lessonsLoop classItem subject unitItem subUnits st
                     else Some st) with
              | None => None
              | Some st' => unitsLoop classItem subject rest st'
              end
          end
      end
  end.

(** The loop over the subjects of a class. *)
Fixpoint subjectsLoop (classItem : Item) (subjects : list Item)
         (st : Search) : option Search :=
  match subjects with
  | [] => Some st
  | subject :: rest =>
      match getUnitsBySubjectId api (_id subject) with
      | None => None
      | Some units =>
          match findById lessonId units with
          | Some unit =>
              Some (mkSearch true
                             [name classItem; name subject; name unit]
                             (name unit))
          | None =>
              match unitsLoop classItem subject units st with
              | None => None
              | Some st' =>
                  if foundLevel st' then Some st'
                  else subjectsLoop classItem rest st'
              end
          end
      end
  end.

(** The loop over the classes. *)
Fixpoint classesLoop (classes : list Item) (st : Search) : option Search :=
  match classes with
  | [] => Some st
  | classItem :: rest =>
      match getSubjectsByClassId api (_id classItem) with
      | None => None
      | Some subjects =>
          match subjectsLoop classItem subjects st with
          | None => None
          | Some st' =>
              if foundLevel st' then Some st' else classesLoop rest st'
          end
      end
  end.

(** The second strategy, from [getClasses] to the two setters: the pair is
    [(autoTitle, folderPath)]. *)
Definition strategy2 : option (string * string) :=
  match getClasses api with
  | None => None
  | Some classes =>
      match classesLoop classes (mkSearch false [] "New Slides") with
      | None => None
      | Some st =>
          if foundLevel st && (0 <? List.length (breadcrumbParts st))%nat then
            match virtualPath (breadcrumbParts st) (fileName st) with
            | Some fullVirtualPath => Some (fileName st, fullVirtualPath)
            | None => None
            end
          else
            let fallbackTitle := ("Slides_" ++ Text.sliceLast 4 lessonId)%string in
            let fallbackPath :=
              ("../uploads/Class/default/Unit/Slides/" ++ fallbackTitle ++ ".pdf")%string in
            Some (fallbackTitle, fallbackPath)
      end
  end.

(** The [try] block of [fetchTitleAndPath]; [None] when it throws. *)
Definition tryBlock : option (string * string) :=
  match getBreadcrumbs api lessonId with
  | None => None
  | Some breadcrumbs =>
      let viaBreadcrumbs :=
        match breadcrumbs with
        | Some b =>
            if Text.truthy b && Text.truthy (Text.trim b) then
              let parts := breadcrumbSplit b in
              if (2 <=? List.length parts)%nat then Some parts else None
            else None
        | None => None
        end in
      match viaBreadcrumbs with
      | Some parts =>
          let fileName := nth (List.length parts - 1) parts "undefined"%string in
          match virtualPath parts fileName with
          | Some fullVirtualPath => Some (fileName, fullVirtualPath)
          | None => None
          end
      | None => strategy2
      end
  end.

(** [fetchTitleAndPath]: the values given to [setAutoTitle] and
    [setFolderPath]. *)
Definition fetchTitleAndPath : string * string :=
  match tryBlock with
  | Some r => r
  | None => ("New Slides", "Default/Slides/New Slides.pdf")%string
  end.

(** The effect on [lessonId]. *)
Definition titleEffect : string * string :=
  if Text.truthy lessonId then fetchTitleAndPath
  else ("Select a lesson/unit first",
        "../uploads/Class/Pending/Unit/Slides/Pending Selection.pdf")%string.

End Strategies.

(** [item] is what [find] gives for [lessonId] in a list of units, of
    sub-units or of lessons that the API returned: the first entry of that
    list whose id is [lessonId]. *)
Definition answeredWith (api : Api) (lessonId : string) (item : Item) : Prop :=
  exists (k : string) (items : list Item),
    (getUnitsBySubjectId api k = Some items
     \/ getSubUnitsByUnitId api k = Some items
     \/ getLessonsBySubUnitId api k = Some items)
    /\ findById lessonId items = Some item.

(** A search that has found the level holds three to five breadcrumb
    parts, the last of which is the file name, the name of the entry that
    the API returned for [lessonId]. *)
Definition goodSearch (api : Api) (lessonId : string) (st : Search) : Prop :=
  foundLevel st = true ->
  (3 <= List.length (breadcrumbParts st) <= 5)%nat
  /\ last (breadcrumbParts st) EmptyString = fileName st
  /\ exists item, answeredWith api lessonId item /\ name item = fileName st.

(** No call of the hierarchy API rejects. *)
Definition apiAnswers (api : Api) : Prop :=
  getClasses api <> None
  /\ (forall k, getSubjectsByClassId api k <> None)
  /\ (forall k, getUnitsBySubjectId api k <> None)
  /\ (forall k, getSubUnitsByUnitId api k <> None)
  /\ (forall k, getLessonsBySubUnitId api k <> None).

(** No unit, sub-unit or lesson that the API returns has the id. *)
Definition idUnknown (api : Api) (lessonId : string) : Prop :=
  (forall k items, getUnitsBySubjectId api k = Some items ->
                   findById lessonId items = None)
  /\ (forall k items, getSubUnitsByUnitId api k = Some items ->
                      findById lessonId items = None)
  /\ (forall k items, getLessonsBySubUnitId api k = Some items ->
                      findById lessonId items = None).

(** No code unit of [s] satisfies [p]. *)
Definition noneOf (p : ascii -> bool) (s : string) : Prop :=
  forallb (fun c => negb (p c)) (list_ascii_of_string s) = true.

(** The upper-case letters A to Z. *)
Definition isUpperAscii (c : ascii) : bool :=
  let n := N_of_ascii c in ((65 <=? n) && (n <=? 90))%N.

End TitlePath.

(** ** The upload form: [UploadForm] *)

Module Upload.

(** A [File] of the file input. *)
Record File : Type := mkFile {
  fileName : string;
  fileType : string;
  fileSize : Z
}.

(** A value appended to a [FormData]. *)
Inductive FormValue : Type :=
| FileValue (f : File)
| TextValue (s : string).

Definition FormData : Type := list (string * FormValue).

(** [showToast(message, kind)]. *)
Record Toast : Type := mkToast {
  toastMessage : string;
  toastKind : string
}.

Definition doubleQuote : string := String (ascii_of_N 34) EmptyString.
Definition backslash : string := String (ascii_of_N 92) EmptyString.

Definition hexDigit (n : N) : string :=
  String (ascii_of_N (if n <? 10 then 48 + n else 87 + n)%N) EmptyString.

(** One code unit inside a JSON string literal. *)
Definition quoteChar (c : ascii) : string :=
  let n := N_of_ascii c in
  (if n =? 34 then backslash ++ doubleQuote
   else if n =? 92 then backslash ++ backslash
   else if n =? 8 then backslash ++ "b"
   else if n =? 9 then backslash ++ "t"
   else if n =? 10 then backslash ++ "n"
   else if n =? 12 then backslash ++ "f"
   else if n =? 13 then backslash ++ "r"
   else if n <? 32 then backslash ++ "u00" ++ hexDigit (n / 16) ++ hexDigit (n mod 16)
   else String c EmptyString)%N%string.

Fixpoint quoteChars (s : string) : string :=
  match s with
  | EmptyString => EmptyString
  | String c r => (quoteChar c ++ quoteChars r)%string
  end.

(** [JSON.stringify(s)] for a string. *)
Definition quote (s : string) : string :=
  (doubleQuote ++ quoteChars s ++ doubleQuote)%string.

(** [JSON.stringify({ category: 'Custom', subCategory: folderPath })]. *)
Definition metadata (folderPath : string) : string :=
  ("{" ++ quote "category" ++ ":" ++ quote "Custom" ++ ","
       ++ quote "subCategory" ++ ":" ++ quote folderPath ++ "}")%string.

(** The state cells of [UploadForm] with the prop [lessonId], and what the
    form has done to its surroundings: [nextUrl] numbers the object URLs
    the browser has handed out ([previewUrl] holds such a number),
    [revoked] lists the ones given to [URL.revokeObjectURL], [inFlight]
    holds the form data of the calls of [api.uploadFile] not yet settled,
    [uploaded] counts the calls of [onUpload]. *)
Record State : Type := mkState {
  lessonId : string;
  file : option File;
  previewUrl : option nat;
  autoTitle : string;
  folderPath : string;
  isSaving : bool;
  nextUrl : nat;
  revoked : list nat;
  inFlight : list FormData;
  toasts : list Toast;
  uploaded : nat;
  console : list Pdf.LogEntry
}.

Definition initial (lessonId : string) : State :=
  mkState lessonId None None "Loading title..." "" false 0 [] [] [] 0 [].

Definition showToast (message kind : string) (st : State) : State :=
  mkState (lessonId st) (file st) (previewUrl st) (autoTitle st) (folderPath st)
          (isSaving st) (nextUrl st) (revoked st) (inFlight st)
          (mkToast message kind :: toasts st) (uploaded st) (console st).

Definition setFile (f : option File) (st : State) : State :=
  mkState (lessonId st) f (previewUrl st) (autoTitle st) (folderPath st)
          (isSaving st) (nextUrl st) (revoked st) (inFlight st)
          (toasts st) (uploaded st) (console st).

Definition setIsSaving (b : bool) (st : State) : State :=
  mkState (lessonId st) (file st) (previewUrl st) (autoTitle st) (folderPath st)
          b (nextUrl st) (revoked st) (inFlight st)
          (toasts st) (uploaded st) (console st).

Definition sameUrl (a b : option nat) : bool :=
  match a, b with
  | None, None => true
  | Some x, Some y => (x =? y)%nat
  | _, _ => false
  end.

(** [setPreviewUrl(u)] with the effect on [previewUrl]: when the value
    changes, the cleanup of the previous run revokes the previous URL. *)
Definition setPreviewUrl (u : option nat) (st : State) : State :=
  if sameUrl u (previewUrl st) then st
  else
    mkState (lessonId st) (file st) u (autoTitle st) (folderPath st)
            (isSaving st) (nextUrl st)
            (match previewUrl st with
             | Some old => old :: revoked st
             | None => revoked st
             end)
            (inFlight st) (toasts st) (uploaded st) (console st).

(** [URL.createObjectURL(selectedFile)]: the browser hands out a new URL. *)
Definition createObjectURL (st : State) : nat * State :=
  (nextUrl st,
   mkState (lessonId st) (file st) (previewUrl st) (autoTitle st) (folderPath st)
           (isSaving st) (S (nextUrl st)) (revoked st) (inFlight st)
           (toasts st) (uploaded st) (console st)).

(** [handleFileChange]; [selectedFile] is [e.target.files?.[0]]. *)
Definition handleFileChange (selectedFile : option File) (st : State) : State :=
  match selectedFile with
  | None => st
  | Some f =>
      if (fileType f =? "application/pdf")%string then
        let st1 := setFile (Some f) st in
        let (objectUrl, st2) := createObjectURL st1 in
        setPreviewUrl (Some objectUrl) st2
      else
        setPreviewUrl None
          (setFile None (showToast "Please select a valid PDF file." "error" st))
  end.

(** The form data that [handleSubmit] builds. *)
Definition formData (f : File) (st : State) : FormData :=
  [("file"%string, FileValue f);
   ("lessonId"%string, TextValue (lessonId st));
   ("type"%string, TextValue "slide");
   ("title"%string, TextValue (autoTitle st));
   ("metadata"%string, TextValue (metadata (folderPath st)))].

(** [handleSubmit] up to [await api.uploadFile(formData)]. *)
Definition handleSubmit (st : State) : State :=
  match file st with
  | None => st
  | Some f =>
      if negb (Text.truthy (autoTitle st)) || isSaving st then st
      else
        mkState (lessonId st) (file st) (previewUrl st) (autoTitle st)
                (folderPath st) true (nextUrl st) (revoked st)
                (inFlight st ++ [formData f st])
                (toasts st) (uploaded st) (console st)
  end.

(** The rest of [handleSubmit], when the oldest upload in flight settles. *)
Definition handleSubmit_resume (outcome : Js.Settled unit Pdf.Exn) (st : State) : State :=
  match inFlight st with
  | [] => st
  | _ :: rest =>
      match outcome with
      | Js.Fulfilled _ =>
          mkState (lessonId st) (file st) (previewUrl st) (autoTitle st)
                  (folderPath st) (isSaving st) (nextUrl st) (revoked st) rest
                  (mkToast "Slides uploaded successfully!" "success" :: toasts st)
                  (S (uploaded st)) (console st)
      | Js.Rejected err =>
          mkState (lessonId st) (file st) (previewUrl st) (autoTitle st)
                  (folderPath st) false (nextUrl st) (revoked st) rest
                  (mkToast "Failed to upload slides." "error" :: toasts st)
                  (uploaded st) (Pdf.ConsoleError "Upload error:" err :: console st)
      end
  end.

(** The title effect has set [autoTitle] and [folderPath]. *)
Definition setTitleAndPath (r : string * string) (st : State) : State :=
  mkState (lessonId st) (file st) (previewUrl st) (fst r) (snd r)
          (isSaving st) (nextUrl st) (revoked st) (inFlight st)
          (toasts st) (uploaded st) (console st).

Inductive Event : Type :=
| FileChange (selectedFile : option File)
| Submit
| UploadSettled (outcome : Js.Settled unit Pdf.Exn)
| TitleResolved (r : string * string).

Definition step (st : State) (ev : Event) : State :=
  match ev with
  | FileChange f => handleFileChange f st
  | Submit => handleSubmit st
  | UploadSettled o => handleSubmit_resume o st
  | TitleResolved r => setTitleAndPath r st
  end.

Definition run (st : State) (evs : list Event) : State :=
  fold_left step evs st.

(** The object URLs handed out and not revoked. *)
Definition liveUrls (st : State) : list nat :=
  filter (fun u => negb (existsb (Nat.eqb u) (revoked st))) (seq 0 (nextUrl st)).

(** At most one upload is in flight and at most one has succeeded; while
    one is in flight, and after one has succeeded, the form is saving. *)
Definition singleFlight (st : State) : Prop :=
  (List.length (inFlight st) <= 1)%nat
  /\ (inFlight st <> [] -> isSaving st = true)
  /\ (uploaded st <= 1)%nat
  /\ (uploaded st = 1%nat -> isSaving st = true /\ inFlight st = []).

(** Every object URL handed out is revoked or is the current preview, and
    the current preview is a URL handed out and not revoked. *)
Definition urlsAccounted (st : State) : Prop :=
  (forall u, previewUrl st = Some u -> (u < nextUrl st)%nat /\ ~ In u (revoked st))
  /\ (forall u, In u (revoked st) -> (u < nextUrl st)%nat)
  /\ (forall u, (u < nextUrl st)%nat -> In u (revoked st) \/ previewUrl st = Some u).

End Upload.

(** ** Where the slides come from: [loadPdfFromFile] of [FullscreenSlideViewer] *)

Module Source.

(** The fields of a [Content] that the viewer reads; a missing field is
    [None]. *)
Record Content : Type := mkContent {
  _id : string;
  filePath : option string;
  body : option string
}.

(** An optional string in a condition. *)
Definition truthy (v : option string) : bool :=
  match v with
  | Some s => Text.truthy s
  | None => false
  end.

(** [`/api/content/${content._id}/file`]. *)
Definition fileUrl (content : Content) : string :=
  ("/api/content/" ++ _id content ++ "/file")%string.

(** What React throws when a hook is called outside the render of a
    component, as in the body of an effect. *)
Definition invalidHookCall : Pdf.Exn :=
  Pdf.Error "Invalid hook call. Hooks can only be called inside of the body of a function component.".

(** The cell [pdfUrl] and the errors logged. *)
Record State : Type := mkState {
  pdfUrl : option string;
  console : list Pdf.LogEntry
}.

(** [loadPdfFromFile], run by the effect on [content].  The second branch
    calls the hook [useBase64ToBlobUrl] from inside the effect: the call
    throws before [setPdfUrl] is reached, and the [catch] clause logs it. *)
Definition loadPdfFromFile (content : Content) (st : State) : State :=
  if truthy (filePath content) then
    mkState (Some (fileUrl content)) (console st)
  else if truthy (body content)
          && Blob.startsWith (match body content with Some b => b | None => "" end)
                             Blob.pdfPrefix then
    mkState (pdfUrl st)
            (Pdf.ConsoleError "[FullscreenSlideViewer] Error loading PDF:" invalidHookCall
             :: console st)
  else st.

(** What the content area shows: [pdfUrl ? <SlidePdfViewer .../> : ...]. *)
Inductive ContentArea : Type :=
| SlidePdfViewer (url : string)
| LoadingSlides.

Definition contentArea (st : State) : ContentArea :=
  match pdfUrl st with
  | Some u => if Text.truthy u then SlidePdfViewer u else LoadingSlides
  | None => LoadingSlides
  end.

End Source.

(** ** The API entry point: [api/index.cjs] *)

Module Api.

(** An error object: its [name] and [message]. *)
Record Err : Type := mkErr {
  errName : string;
  errMessage : string
}.

(** [String(err)]. *)
Definition toString (e : Err) : string :=
  if (errMessage e =? "")%string then errName e
  else if (errName e =? "")%string then errMessage e
  else (errName e ++ ": " ++ errMessage e)%string.

(** What a routes module exports: a router, or something that is no
    middleware function. *)
Inductive Value : Type :=
| Router (id : nat)
| EmptyRouter
| NotAFunction.

(** A loaded module: the module object itself and its [default]
    property, [None] when that is missing or falsy. *)
Record Mod : Type := mkMod {
  self : Value;
  default : option Value
}.

(** [mod.default || mod]. *)
Definition exported (m : Mod) : Value :=
  match default m with
  | Some v => v
  | None => self m
  end.

(** What a request finds around the process: [process.env.MONGODB_URI],
    how [mongoose.connect] would settle, how loading the routes module
    would go by [import('./routes/index.js')], [require('./routes/index.cjs')]
    and [require('./routes/index.js')], and the [TypeError] that Express
    throws when [app.use] is given a value that is not a function. *)
Record Env : Type := mkEnv {
  mongodbUri : option string;
  connect : Js.Settled unit Err;
  importEsm : Js.Settled Mod Err;
  requireCjs : Js.Settled Mod Err;
  requireIndex : Js.Settled Mod Err;
  notMiddleware : Err
}.

(** The module variables [dbConnected] and [routesMounted], the routers
    mounted on [/api] (latest first) and the number of calls of
    [mongoose.connect]. *)
Record State : Type := mkState {
  dbConnected : bool;
  routesMounted : bool;
  mounted : list Value;
  connectCalls : nat
}.

Definition initial : State := mkState false false [] 0.

(** [connectToDatabase]. *)
Definition connectToDatabase (env : Env) (st : State) : Js.Settled unit Err * State :=
  if dbConnected st then (Js.Fulfilled tt, st)
  else
    match mongodbUri env with
    | None => (Js.Rejected (mkErr "Error" "MONGODB_URI is not defined"), st)
    | Some uri =>
        if (uri =? "")%string
        then (Js.Rejected (mkErr "Error" "MONGODB_URI is not defined"), st)
        else
          match connect env with
          | Js.Fulfilled _ =>
              (Js.Fulfilled tt,
               mkState true (routesMounted st) (mounted st) (S (connectCalls st)))
          | Js.Rejected e =>
              (Js.Rejected e,
               mkState false (routesMounted st) (mounted st) (S (connectCalls st)))
          end
    end.

(** [loadApiRoutes]. *)
Definition loadApiRoutes (env : Env) : Value :=
  match importEsm env with
  | Js.Fulfilled m => exported m
  | Js.Rejected e1 =>
      match requireCjs env with
      | Js.Fulfilled m => exported m
      | Js.Rejected e2 =>
          match requireIndex env with
          | Js.Fulfilled m2 => exported m2
          | Js.Rejected e3 => EmptyRouter
          end
      end
  end.

(** [app.use('/api', apiRoutes)]: Express throws for a value that is not
    a function. *)
Definition appUse (env : Env) (v : Value) (st : State) : Js.Settled unit Err * State :=
  match v with
  | NotAFunction => (Js.Rejected (notMiddleware env), st)
  | _ =>
      (Js.Fulfilled tt,
       mkState (dbConnected st) (routesMounted st) (v :: mounted st) (connectCalls st))
  end.

(** [ensureRoutes]. *)
Definition ensureRoutes (env : Env) (st : State) : Js.Settled unit Err * State :=
  if routesMounted st then (Js.Fulfilled tt, st)
  else
    match appUse env (loadApiRoutes env) st with
    | (Js.Fulfilled _, st1) =>
        (Js.Fulfilled tt,
         mkState (dbConnected st1) true (mounted st1) (connectCalls st1))
    | (Js.Rejected e, st1) => (Js.Rejected e, st1)
    end.

(** What [serverlessHandler] does with a request: hand it to the Express
    app, or answer itself. *)
Inductive Response : Type :=
| Delegated
| Json (status : Z) (error : string) (message : string).

(** [serverlessHandler]. *)
Definition serverlessHandler (env : Env) (st : State) : Response * State :=
  match connectToDatabase env st with
  | (Js.Rejected err, st1) => (Json 500 "Server error" (toString err), st1)
  | (Js.Fulfilled _, st1) =>
      match ensureRoutes env st1 with
      | (Js.Rejected err, st2) => (Json 500 "Server error" (toString err), st2)
      | (Js.Fulfilled _, st2) => (Delegated, st2)
      end
  end.

(** Requests handled one after the other, each in its environment: the
    responses (first request first) and the state left. *)
Fixpoint serve (envs : list Env) (st : State) : list Response * State :=
  match envs with
  | [] => ([], st)
  | env :: rest =>
      let (r, st1) := serverlessHandler env st in
      let (rs, st2) := serve rest st1 in
      (r :: rs, st2)
  end.

(** The routes are mounted only on a connected process, and then exactly
    once; before that nothing is mounted. *)
Definition consistent (st : State) : Prop :=
  (routesMounted st = true ->
   dbConnected st = true /\ List.length (mounted st) = 1%nat)
  /\ (routesMounted st = false -> mounted st = []).

End Api.

(** * Properties *)

(** ** Comparisons on numbers *)

Lemma ltb_lt (x y : Q) : Js.ltb x y = true <-> (x < y)%Q.
Proof.
  unfold Js.ltb. rewrite negb_true_iff.
  split; intro H.
  - apply Qnot_le_lt. intro L. apply Qle_bool_iff in L. congruence.
  - destruct (Qle_bool y x) eqn:E; [|reflexivity].
    apply Qle_bool_iff in E. exfalso. exact (Qlt_not_le _ _ H E).
Qed.

Lemma ltb_ge (x y : Q) : Js.ltb x y = false <-> (y <= x)%Q.
Proof.
  unfold Js.ltb. rewrite negb_false_iff. apply Qle_bool_iff.
Qed.

Lemma leb_le (x y : Q) : Js.leb x y = true <-> (x <= y)%Q.
Proof. apply Qle_bool_iff. Qed.

Lemma leb_gt (x y : Q) : Js.leb x y = false <-> (y < x)%Q.
Proof.
  unfold Js.leb. split; intro H.
  - apply Qnot_le_lt. intro L. apply Qle_bool_iff in L. congruence.
  - destruct (Qle_bool x y) eqn:E; [|reflexivity].
    apply Qle_bool_iff in E. exfalso. exact (Qlt_not_le _ _ H E).
Qed.

Lemma truthy_Some (x : Q) : Js.truthy (Some x) = true <-> ~ (x == 0)%Q.
Proof.
  simpl. rewrite negb_true_iff. split; intro H.
  - intro E. apply Qeq_bool_iff in E. congruence.
  - destruct (Qeq_bool x 0) eqn:E; [|reflexivity].
    apply Qeq_bool_iff in E. contradiction.
Qed.

(** ** Navigation *)

Section NavigationFacts.

Import Navigation.

(** A drag cannot be a left swipe and a right swipe at once. *)
Lemma swipe_exclusive (d : Q) :
  Js.ltb minSwipeDistance d = true ->
  Js.ltb d (- minSwipeDistance)%Q = true -> False.
Proof.
  unfold minSwipeDistance. intros L R.
  apply ltb_lt in L. apply ltb_lt in R. lra.
Qed.

Lemma step_totalSlides (s : Viewer) (ev : Event) :
  totalSlides (step s ev) = totalSlides s.
Proof.
  destruct ev; simpl; try reflexivity.
  - unfold onTouchEnd.
    repeat match goal with
           | |- context [if ?b then _ else _] => destruct b; simpl
           end; reflexivity.
  - unfold handleKeyPress.
    repeat match goal with
           | |- context [if ?b then _ else _] => destruct b; simpl
           end; reflexivity.
  - unfold handleClickNavigation.
    repeat match goal with
           | |- context [if ?b then _ else _] => destruct b; simpl
           end; reflexivity.
  - unfold handleClickNavigation.
    repeat match goal with
           | |- context [if ?b then _ else _] => destruct b; simpl
           end; reflexivity.
  - unfold handleDoubleClick.
    destruct (_ <? _); reflexivity.
Qed.

(** On a state in range every handler moves [currentSlide] by the clamped
    transition of the gesture it recognises. *)
Lemma step_currentSlide (s : Viewer) (ev : Event) :
  inRange s ->
  currentSlide (step s ev) =
  navigate (gesture s ev) (totalSlides s) (currentSlide s).
Proof.
  unfold inRange. intros R.
  destruct ev; simpl; try reflexivity.
  - unfold onTouchEnd.
    destruct (Js.truthy (touchStart s)); simpl; [|reflexivity].
    destruct (Js.truthy (touchEnd s)); simpl; [|reflexivity].
    set (d := (Js.toNumber (touchStart s) - Js.toNumber (touchEnd s))%Q).
    destruct (Js.ltb minSwipeDistance d) eqn:L;
      destruct (Js.ltb d (- minSwipeDistance)%Q) eqn:Rt; simpl.
    + exfalso. exact (swipe_exclusive d L Rt).
    + destruct (currentSlide s <? totalSlides s) eqn:G; simpl.
      * apply Z.ltb_lt in G. lia.
      * apply Z.ltb_ge in G. lia.
    + destruct (1 <? currentSlide s) eqn:G; simpl.
      * apply Z.ltb_lt in G. lia.
      * apply Z.ltb_ge in G. lia.
    + reflexivity.
  - unfold handleKeyPress.
    destruct ((key =? "ArrowLeft")%string || (key =? "ArrowUp")%string);
      [reflexivity|].
    destruct ((key =? "ArrowRight")%string || (key =? "ArrowDown")%string);
      [reflexivity|].
    destruct (key =? "Escape")%string; reflexivity.
  - unfold handleClickNavigation.
    destruct (viewerRef s); simpl; [|reflexivity].
    destruct (Js.leb (clickPercentage e) 25); [reflexivity|].
    destruct (Js.leb 75 (clickPercentage e)); reflexivity.
  - unfold handleClickNavigation. simpl.
    destruct (viewerRef s); simpl; [|reflexivity].
    destruct (Js.leb (clickPercentage e) 25); [reflexivity|].
    destruct (Js.leb 75 (clickPercentage e)); reflexivity.
  - unfold handleDoubleClick.
    destruct (_ <? _); reflexivity.
Qed.

Lemma navigate_inRange (n : Nav) (pageCount page : Z) :
  1 <= page <= pageCount -> 1 <= navigate n pageCount page <= pageCount.
Proof. destruct n; simpl; lia. Qed.

Lemma step_inRange (s : Viewer) (ev : Event) :
  inRange s -> inRange (step s ev).
Proof.
  intros R. unfold inRange.
  rewrite step_totalSlides, (step_currentSlide s ev R).
  apply navigate_inRange. exact R.
Qed.

Lemma run_inRange (evs : list Event) :
  forall s, inRange s ->
            inRange (run s evs) /\ totalSlides (run s evs) = totalSlides s.
Proof.
  induction evs as [|ev evs IH]; intros s R.
  - split; [exact R | reflexivity].
  - change (run s (ev :: evs)) with (run (step s ev) evs).
    destruct (IH (step s ev) (step_inRange s ev R)) as [R' T].
    split; [exact R'|].
    rewrite T. apply step_totalSlides.
Qed.

(** The state after a document with at least one page has loaded. *)
Lemma handlePdfLoad_inRange (s : Viewer) (numPages : Z) :
  1 <= numPages -> inRange (handlePdfLoad numPages s).
Proof. unfold inRange. simpl. lia. Qed.

(** C1. Starting from a page within [1, pageCount] with pageCount >= 1,
    after every sequence of touch, key, click and double-click events
    [currentSlide] is still within [1, pageCount] and [totalSlides] is
    unchanged; every handler returns a state (none throws); a gesture that
    asks for the previous page at page 1, or for the next page at the last
    page, leaves [currentSlide] where it is. *)
Theorem navigation_stays_in_range :
  forall (s : Viewer) (evs : list Event),
    1 <= totalSlides s ->
    1 <= currentSlide s <= totalSlides s ->
    (1 <= currentSlide (run s evs) <= totalSlides s
     /\ totalSlides (run s evs) = totalSlides s)
    /\ (forall ev, gesture s ev = Prev -> currentSlide s = 1 ->
                   currentSlide (step s ev) = currentSlide s)
    /\ (forall ev, gesture s ev = Next -> currentSlide s = totalSlides s ->
                   currentSlide (step s ev) = currentSlide s).
Proof.
  intros s evs _ R.
  destruct (run_inRange evs s R) as [R' T].
  unfold inRange in R'. rewrite T in R'.
  split; [split; assumption|].
  split; intros ev G B; rewrite (step_currentSlide s ev R), G; simpl; lia.
Qed.

Lemma navigation_stays_in_range_witness :
  let s := mkViewer 1 3 None None 0 true false in
  let evs := [KeyDown "ArrowLeft"; KeyDown "ArrowRight"; TouchStart 300;
              TouchMove 100; TouchEnd; KeyDown "ArrowDown"; KeyDown "ArrowDown";
              Click (mkMouseEvent 0 790 0 800)] in
  (1 <= currentSlide (run s evs) <= totalSlides s
   /\ totalSlides (run s evs) = totalSlides s)
  /\ (forall ev, gesture s ev = Prev -> currentSlide s = 1 ->
                 currentSlide (step s ev) = currentSlide s)
  /\ (forall ev, gesture s ev = Next -> currentSlide s = totalSlides s ->
                 currentSlide (step s ev) = currentSlide s).
Proof.
  intros s evs.
  apply (navigation_stays_in_range s evs); simpl; lia.
Defined.

End NavigationFacts.

(** ** Zone clicks *)

Section ZoneClickFacts.

Import Navigation.

Lemma handleClickNavigation_zone (e : MouseEvent) (s : Viewer) :
  viewerRef s = true ->
  handleClickNavigation e s =
  setCurrentSlide (navigate (zone e) (totalSlides s)) s.
Proof.
  intros V. unfold handleClickNavigation, zone. rewrite V. simpl.
  destruct (Js.leb (clickPercentage e) 25); [reflexivity|].
  destruct (Js.leb 75 (clickPercentage e)); [reflexivity|].
  destruct s; reflexivity.
Qed.

Lemma percentage_le (x w p : Q) :
  (0 < w)%Q -> ((x / w * 100 <= p)%Q <-> (x <= (p / 100) * w)%Q).
Proof.
  intros W.
  assert (Hx : (x == (x / w) * w)%Q).
  { field. intro E. rewrite E in W. exact (Qlt_irrefl _ W). }
  revert Hx. generalize (x / w)%Q. intros q Hx.
  rewrite Hx. rewrite (Qmult_le_r q (p / 100) w W).
  assert (E : (p / 100 == p * (1 # 100))%Q) by field.
  rewrite E. split; intro H; lra.
Qed.

Lemma percentage_ge (x w p : Q) :
  (0 < w)%Q -> ((p <= x / w * 100)%Q <-> ((p / 100) * w <= x)%Q).
Proof.
  intros W.
  assert (Hx : (x == (x / w) * w)%Q).
  { field. intro E. rewrite E in W. exact (Qlt_irrefl _ W). }
  revert Hx. generalize (x / w)%Q. intros q Hx.
  rewrite Hx. rewrite (Qmult_le_r (p / 100) q w W).
  assert (E : (p / 100 == p * (1 # 100))%Q) by field.
  rewrite E. split; intro H; lra.
Qed.

(** [clickPercentage] against a bound, in terms of the click position and
    the width of the surface. *)
Lemma clickPercentage_le (e : MouseEvent) (p : Q) :
  (0 < rectWidth e)%Q ->
  ((clickPercentage e <= p)%Q <-> (clickX e <= (p / 100) * rectWidth e)%Q).
Proof. intros W. apply percentage_le. exact W. Qed.

Lemma clickPercentage_ge (e : MouseEvent) (p : Q) :
  (0 < rectWidth e)%Q ->
  ((p <= clickPercentage e)%Q <-> ((p / 100) * rectWidth e <= clickX e)%Q).
Proof. intros W. apply percentage_ge. exact W. Qed.

(** The bounds 25% and 75% as plain fractions, for [lra]. *)
Ltac percent_bounds :=
  change (25 / 100)%Q with (25 # 100)%Q in *;
  change (75 / 100)%Q with (75 # 100)%Q in *.

(** C2, as stated, fails: on a surface 400 wide, a click at 100 (exactly
    25% of the width) on page 2 of 3 moves to page 1. *)
Lemma click_at_quarter_decrements :
  let s := mkViewer 2 3 None None 0 true false in
  let e := mkMouseEvent 0 100 0 400 in
  (clickX e == (25 / 100) * rectWidth e)%Q
  /\ currentSlide s = 2
  /\ currentSlide (handleClickNavigation e s) = 1.
Proof.
  simpl. split; [reflexivity|]. split; reflexivity.
Qed.

(** C2, amended. The boundaries belong to the navigating zones: a click at
    or left of 25% of the width moves to the previous page (clamped at 1),
    a click at or right of 75% moves to the next page (clamped at
    [totalSlides]), and only a click strictly between 25% and 75% leaves
    the state unchanged. *)
Theorem zone_click_boundaries_navigate :
  forall (s : Viewer) (e : MouseEvent),
    viewerRef s = true ->
    (0 < rectWidth e)%Q ->
    ((clickX e <= (25 / 100) * rectWidth e)%Q ->
     currentSlide (handleClickNavigation e s) = Z.max 1 (currentSlide s - 1))
    /\ (((75 / 100) * rectWidth e <= clickX e)%Q ->
        currentSlide (handleClickNavigation e s) =
        Z.min (totalSlides s) (currentSlide s + 1))
    /\ (((25 / 100) * rectWidth e < clickX e)%Q ->
        (clickX e < (75 / 100) * rectWidth e)%Q ->
        handleClickNavigation e s = s).
Proof.
  intros s e V W.
  rewrite (handleClickNavigation_zone e s V). unfold zone.
  split; [|split].
  - intros H. apply (clickPercentage_le e 25 W) in H.
    apply leb_le in H. rewrite H. reflexivity.
  - intros H.
    assert (G : (25 < clickPercentage e)%Q).
    { apply Qnot_le_lt. intro L. apply (clickPercentage_le e 25 W) in L.
      percent_bounds. lra. }
    apply leb_gt in G. rewrite G.
    apply (clickPercentage_ge e 75 W) in H.
    apply leb_le in H. rewrite H. reflexivity.
  - intros L R.
    assert (G : (25 < clickPercentage e)%Q).
    { apply Qnot_le_lt. intro C. apply (clickPercentage_le e 25 W) in C.
      percent_bounds. lra. }
    assert (K : (clickPercentage e < 75)%Q).
    { apply Qnot_le_lt. intro C. apply (clickPercentage_ge e 75 W) in C.
      percent_bounds. lra. }
    apply leb_gt in G. apply leb_gt in K. rewrite G, K.
    destruct s; reflexivity.
Qed.

Lemma zone_click_boundaries_navigate_witness :
  let s := mkViewer 2 3 None None 0 true false in
  let e := mkMouseEvent 0 100 0 400 in
  currentSlide (handleClickNavigation e s) = Z.max 1 (currentSlide s - 1).
Proof.
  intros s e.
  refine (proj1 (zone_click_boundaries_navigate s e eq_refl _) _).
  - reflexivity.
  - unfold clickX. simpl. percent_bounds. lra.
Defined.

End ZoneClickFacts.

(** ** Double clicks in the fullscreen viewer *)

Section DoubleClickFacts.

Import Navigation.

Lemma handleDoubleClick_currentSlide (t : Z) (s : Viewer) :
  currentSlide (handleDoubleClick t s) = currentSlide s
  /\ totalSlides (handleDoubleClick t s) = totalSlides s
  /\ viewerRef (handleDoubleClick t s) = viewerRef s.
Proof.
  unfold handleDoubleClick. destruct (_ <? _); simpl; auto.
Qed.

(** C3, as stated, fails: two clicks 100 ms apart in the left zone, on
    page 3 of 5.  The second click moves from page 2 to page 1, and the
    page is still 1 after the [dblclick] event that follows. *)
Lemma second_click_navigates :
  let s := mkViewer 3 5 None None 0 true false in
  let e1 := mkMouseEvent 1700000000000 40 0 400 in
  let e2 := mkMouseEvent 1700000000100 40 0 400 in
  timeStamp e2 - timeStamp e1 < 300
  /\ zone e1 = Prev /\ zone e2 = Prev
  /\ currentSlide (run s [Click e1]) = 2
  /\ currentSlide (run s [Click e1; Click e2]) = 1
  /\ currentSlide (run s (doubleClick e1 e2)) = 1.
Proof.
  simpl. repeat split; reflexivity.
Qed.

(** C3, amended. Every click fires the zone navigation of its position,
    whatever the time since the click before it: after the two clicks of a
    double click and its [dblclick] event, [currentSlide] is the result of
    both zone navigations in turn.  The time stamp of a click is not read,
    and the double-click handler, which alone compares times, never
    changes [currentSlide]. *)
Theorem clicks_navigate_whatever_the_timing :
  forall (s : Viewer) (e1 e2 : MouseEvent),
    viewerRef s = true ->
    currentSlide (run s (doubleClick e1 e2)) =
    navigate (zone e2) (totalSlides s)
             (navigate (zone e1) (totalSlides s) (currentSlide s))
    /\ (forall t, handleClickNavigation
                    (mkMouseEvent t (clientX e2) (rectLeft e2) (rectWidth e2)) s =
                  handleClickNavigation e2 s)
    /\ (forall t, currentSlide (handleDoubleClick t s) = currentSlide s).
Proof.
  intros s e1 e2 V. split; [|split].
  - change (run s (doubleClick e1 e2))
      with (handleDoubleClick (timeStamp e2)
              (handleClickNavigation e2 (handleClickNavigation e1 s))).
    destruct (handleDoubleClick_currentSlide
                (timeStamp e2)
                (handleClickNavigation e2 (handleClickNavigation e1 s)))
      as [C _].
    rewrite C.
    rewrite (handleClickNavigation_zone e1 s V).
    rewrite handleClickNavigation_zone by exact V.
    reflexivity.
  - intros t. reflexivity.
  - intros t. apply handleDoubleClick_currentSlide.
Qed.

Lemma clicks_navigate_whatever_the_timing_witness :
  let s := mkViewer 3 5 None None 0 true false in
  let e1 := mkMouseEvent 1700000000000 40 0 400 in
  let e2 := mkMouseEvent 1700000000100 40 0 400 in
  viewerRef s = true
  /\ currentSlide (run s (doubleClick e1 e2)) =
     navigate (zone e2) (totalSlides s)
              (navigate (zone e1) (totalSlides s) (currentSlide s)).
Proof.
  intros s e1 e2. split; [reflexivity|].
  exact (proj1 (clicks_navigate_whatever_the_timing s e1 e2 eq_refl)).
Defined.

End DoubleClickFacts.

(** ** Swipes *)

Section SwipeFacts.

Import Navigation.

(** What [onTouchEnd] does when both coordinates are truthy. *)
Lemma swipe_currentSlide (s : Viewer) (x0 x1 : Q) :
  inRange s ->
  ~ (x0 == 0)%Q -> ~ (x1 == 0)%Q ->
  ((x0 - x1 <= 50)%Q -> (-50 <= x0 - x1)%Q ->
   currentSlide (run s (swipe x0 x1)) = currentSlide s)
  /\ ((50 < x0 - x1)%Q ->
      currentSlide (run s (swipe x0 x1)) =
      Z.min (currentSlide s + 1) (totalSlides s))
  /\ ((x0 - x1 < -50)%Q ->
      currentSlide (run s (swipe x0 x1)) = Z.max (currentSlide s - 1) 1).
Proof.
  intros R N0 N1.
  assert (R' : inRange (onTouchMove x1 (onTouchStart x0 s))) by exact R.
  assert (E : currentSlide (run s (swipe x0 x1)) =
              navigate (gesture (onTouchMove x1 (onTouchStart x0 s)) TouchEnd)
                       (totalSlides s) (currentSlide s)).
  { unfold swipe, run. simpl fold_left.
    exact (step_currentSlide (onTouchMove x1 (onTouchStart x0 s)) TouchEnd R'). }
  rewrite E. clear E. simpl gesture.
  apply truthy_Some in N0. apply truthy_Some in N1.
  simpl in N0, N1. rewrite N0, N1. simpl andb. cbv iota.
  unfold minSwipeDistance.
  unfold inRange in R.
  split; [|split].
  - intros A B.
    apply ltb_ge in A. rewrite A.
    assert (B' : Js.ltb (x0 - x1) (- (50))%Q = false) by (apply ltb_ge; lra).
    rewrite B'. reflexivity.
  - intros A. apply ltb_lt in A. rewrite A. simpl. lia.
  - intros A.
    assert (A' : Js.ltb 50 (x0 - x1) = false) by (apply ltb_ge; lra).
    rewrite A'.
    assert (B' : Js.ltb (x0 - x1) (- (50))%Q = true) by (apply ltb_lt; lra).
    rewrite B'. simpl. lia.
Qed.

(** C8 at a failing input: on page 1 of 3 the finger goes down at x = 100
    and is dragged left to the edge of the screen, x = 0.  The drag is 100
    pixels leftward, more than the threshold, yet [currentSlide] stays 1:
    [!touchEnd] is true for the coordinate 0 and [onTouchEnd] returns
    early.  The same drag ending at x = 1 moves to page 2.  In the same
    way a drag to the right that starts at x = 0 is dropped on page 2. *)
Theorem swipe_to_left_edge_is_dropped :
  let s := mkViewer 1 3 None None 0 true false in
  let s2 := mkViewer 2 3 None None 0 true false in
  (50 < 100 - 0)%Q
  /\ currentSlide (run s (swipe 100 0)) = 1
  /\ currentSlide (run s (swipe 100 1)) = 2
  /\ currentSlide (run s2 (swipe 0 100)) = 2
  /\ currentSlide (run s2 (swipe 1 100)) = 1.
Proof.
  simpl. repeat split; reflexivity.
Qed.

End SwipeFacts.

(** ** Document loader *)

Section LoaderFacts.

Import Loader.

Lemma setUrl_keeps_loads (u : string) (st : State) :
  pdfDoc (setUrl u st) = pdfDoc st
  /\ (forall v, In v (pending st) -> In v (pending (setUrl u st))).
Proof.
  unfold setUrl, effect.
  destruct (u =? url st)%string; simpl; [auto|].
  destruct (u =? "")%string; simpl; [auto|].
  split; [reflexivity|]. intros v H. apply in_or_app. left. exact H.
Qed.

Lemma run_app (st : State) (evs1 evs2 : list Event) :
  run st (evs1 ++ evs2) = run (run st evs1) evs2.
Proof. unfold run. apply fold_left_app. Qed.

(** C6, as stated, fails: the viewer is mounted on source A, the source
    is replaced by B while the load of A is pending, the load of B
    completes, then the load of A completes.  The loaded document is the
    one of A although the source is B, and the page count is A's. *)
Lemma superseded_load_wins :
  let a := "/api/content/a/file"%string in
  let b := "/api/content/b/file"%string in
  let pagesA := [Pdf.mkPage 600 800; Pdf.mkPage 600 800] in
  let pagesB := [Pdf.mkPage 600 800; Pdf.mkPage 600 800; Pdf.mkPage 600 800] in
  let st := run (mount a Navigation.initial)
                [SetUrl b; Settle 1 (Js.Fulfilled pagesB);
                 Settle 0 (Js.Fulfilled pagesA)] in
  url st = b
  /\ pending st = []
  /\ loadedSource st = Some a
  /\ Navigation.totalSlides (viewer st) = 2.
Proof.
  simpl. repeat split; reflexivity.
Qed.

(** C6, amended. Replacing the source neither cancels a pending load nor
    releases the loaded document, and the result of every load that
    completes, superseded or not, becomes the loaded document without any
    error being logged: the loaded-document state reflects the load that
    completed last (last-completed-wins), whatever the current source. *)
Theorem last_completed_load_wins :
  forall (st : State) (evs : list Event) (i : nat) (u : string)
         (ps : list Pdf.Page),
    nth_error (pending (run st evs)) i = Some u ->
    let st' := run st (evs ++ [Settle i (Js.Fulfilled ps)]) in
    pdfDoc st' = Some (Pdf.mkDocument u ps)
    /\ Navigation.totalSlides (viewer st') = Z.of_nat (List.length ps)
    /\ Navigation.currentSlide (viewer st') = 1
    /\ console st' = console (run st evs)
    /\ url st' = url (run st evs)
    /\ (forall v, pdfDoc (setUrl v st) = pdfDoc st
                  /\ forall w, In w (pending st) -> In w (pending (setUrl v st))).
Proof.
  intros st evs i u ps P st'.
  assert (E : st' = loadPdf_resume i (Js.Fulfilled ps) (run st evs)).
  { unfold st'. rewrite run_app. reflexivity. }
  rewrite E. unfold loadPdf_resume. rewrite P. simpl.
  repeat split; try reflexivity.
  - apply setUrl_keeps_loads.
  - apply setUrl_keeps_loads.
Qed.

Lemma last_completed_load_wins_witness :
  let a := "/api/content/a/file"%string in
  let b := "/api/content/b/file"%string in
  let st := mount a Navigation.initial in
  let evs := [SetUrl b; Settle 1 (Js.Fulfilled [Pdf.mkPage 600 800])] in
  nth_error (pending (run st evs)) 0 = Some a
  /\ url (run st (evs ++ [Settle 0%nat (Js.Fulfilled [Pdf.mkPage 4 3])])) = b
  /\ pdfDoc (run st (evs ++ [Settle 0%nat (Js.Fulfilled [Pdf.mkPage 4 3])])) =
     Some (Pdf.mkDocument a [Pdf.mkPage 4 3]).
Proof.
  intros a b st evs.
  split; [reflexivity|]. split; [reflexivity|].
  exact (proj1 (last_completed_load_wins st evs 0%nat a [Pdf.mkPage 4 3] eq_refl)).
Defined.

End LoaderFacts.

(** ** Scale calculator *)

Section ScaleFacts.

Import Scale.

Lemma optimalScale_fits (container : Container) (page : Pdf.Page) :
  (0 < Pdf.pageWidth page)%Q -> (0 < Pdf.pageHeight page)%Q ->
  let scale := optimalScale container page in
  (Pdf.pageWidth page * scale <= clientWidth container)%Q
  /\ (Pdf.pageHeight page * scale <= clientHeight container)%Q
  /\ ((Pdf.pageWidth page * scale == clientWidth container)%Q
      \/ (Pdf.pageHeight page * scale == clientHeight container)%Q).
Proof.
  intros W H. unfold optimalScale. cbv zeta.
  destruct container as [vw vh]. destruct page as [pw ph]. simpl in *.
  assert (Nw : ~ (pw == 0)%Q) by (intro E; rewrite E in W; exact (Qlt_irrefl _ W)).
  assert (Nh : ~ (ph == 0)%Q) by (intro E; rewrite E in H; exact (Qlt_irrefl _ H)).
  assert (Ew : (pw * (vw / pw) == vw)%Q) by (field; exact Nw).
  assert (Eh : (ph * (vh / ph) == vh)%Q) by (field; exact Nh).
  assert (Lw : (pw * Qmin (vw / pw) (vh / ph) <= pw * (vw / pw))%Q).
  { rewrite !(Qmult_comm pw). apply Qmult_le_compat_r.
    - apply Q.le_min_l.
    - apply Qlt_le_weak. exact W. }
  assert (Lh : (ph * Qmin (vw / pw) (vh / ph) <= ph * (vh / ph))%Q).
  { rewrite !(Qmult_comm ph). apply Qmult_le_compat_r.
    - apply Q.le_min_r.
    - apply Qlt_le_weak. exact H. }
  split; [rewrite <- Ew at 2; exact Lw|].
  split; [rewrite <- Eh at 2; exact Lh|].
  destruct (Q.min_spec (vw / pw) (vh / ph)) as [[_ M]|[_ M]].
  - left. rewrite M. exact Ew.
  - right. rewrite M. exact Eh.
Qed.

(** C7. For a loaded document, a mounted container of width vw and height
    vh, and a page of intrinsic width pw and height ph, the scale that
    [calculateOptimalScale] sets is min(vw / pw, vh / ph): nothing is
    subtracted for padding, the scaled page fits the container and fills
    it on one axis.  A 600 x 800 page in a 1200 x 900 container gives
    1.125. *)
Theorem scale_is_min_of_ratios :
  forall (doc : Pdf.Document) (currentSlide : Z) (page : Pdf.Page)
         (container : Container) (scale0 : Q),
    Pdf.getPage doc currentSlide = Js.Fulfilled page ->
    (0 < Pdf.pageWidth page)%Q -> (0 < Pdf.pageHeight page)%Q ->
    let scale :=
      calculateOptimalScale (Some doc) (Some container) currentSlide scale0 in
    scale = Qmin (clientWidth container / Pdf.pageWidth page)
                 (clientHeight container / Pdf.pageHeight page)
    /\ (Pdf.pageWidth page * scale <= clientWidth container)%Q
    /\ (Pdf.pageHeight page * scale <= clientHeight container)%Q
    /\ ((Pdf.pageWidth page * scale == clientWidth container)%Q
        \/ (Pdf.pageHeight page * scale == clientHeight container)%Q)
    /\ (calculateOptimalScale
          (Some (Pdf.mkDocument "slides.pdf" [Pdf.mkPage 600 800]))
          (Some (mkContainer 1200 900)) 1 1 == 1125 / 1000)%Q.
Proof.
  intros doc currentSlide page container scale0 G W H scale.
  assert (E : scale = optimalScale container page).
  { unfold scale, calculateOptimalScale. rewrite G. reflexivity. }
  rewrite E.
  split; [reflexivity|].
  destruct (optimalScale_fits container page W H) as [A [B C]].
  repeat split; try assumption.
Qed.

Lemma scale_is_min_of_ratios_witness :
  let doc := Pdf.mkDocument "slides.pdf" [Pdf.mkPage 600 800] in
  let container := mkContainer 1200 900 in
  Pdf.getPage doc 1 = Js.Fulfilled (Pdf.mkPage 600 800)
  /\ calculateOptimalScale (Some doc) (Some container) 1 1 =
     Qmin (1200 / 600) (900 / 800).
Proof.
  intros doc container. split; [reflexivity|].
  exact (proj1 (scale_is_min_of_ratios doc 1 (Pdf.mkPage 600 800) container 1
                  eq_refl eq_refl eq_refl)).
Defined.

End ScaleFacts.

(** ** Page renderer *)

Section RendererFacts.

Import Renderer.

Lemma cancelNth_length (i : nat) (ts : list RenderTask) :
  List.length (cancelNth i ts) = List.length ts.
Proof.
  revert i. induction ts as [|t r IH]; intros [|j]; simpl; auto.
Qed.

Lemma cancelNth_cancels (i : nat) (ts : list RenderTask) (t : RenderTask) :
  nth_error ts i = Some t ->
  nth_error (cancelNth i ts) i =
  Some (mkRenderTask (taskPage t) (taskScale t) true).
Proof.
  revert i. induction ts as [|h r IH]; intros [|j]; simpl; try discriminate.
  - intros E. injection E as <-. reflexivity.
  - apply IH.
Qed.

Lemma nth_error_new_task (ts : list RenderTask) (t : RenderTask) :
  nth_error (ts ++ [t]) (List.length ts) = Some t.
Proof.
  induction ts as [|h r IH]; simpl; auto.
Qed.

(** The first segment only marks the task of [renderTaskRef] cancelled. *)
Lemma renderPage_start_state (st : State) :
  renderPage_start st =
  (Js.Fulfilled tt,
   match renderTaskRef st with
   | Some i => setTasks (cancelNth i (tasks st)) st
   | None => st
   end).
Proof.
  unfold renderPage_start, tryCatch, cancelPrevious, bind, get.
  destruct (renderTaskRef st); reflexivity.
Qed.

Lemma renderPage_start_canvas (st : State) :
  canvas (snd (renderPage_start st)) = canvas st
  /\ console (snd (renderPage_start st)) = console st
  /\ hasContext (snd (renderPage_start st)) = hasContext st.
Proof.
  rewrite renderPage_start_state. destruct (renderTaskRef st); simpl; auto.
Qed.

(** The third segment on a rejected promise: the [catch] clause, the same
    for every exception. *)
Lemma renderPage_rendered_rejected (e : Pdf.Exn) (st : State) :
  renderPage_rendered (Js.Rejected e) st =
  (Js.Fulfilled Returned, consoleError "Error rendering page:" e st).
Proof. reflexivity. Qed.

(** The second segment when the page lookup is fulfilled and the canvas
    has a context. *)
Lemma renderPage_gotPage_fulfilled
      (getViewport : Pdf.Page -> Q -> Pdf.Viewport)
      (n : Z) (scale : Q) (page : Pdf.Page) (st : State) :
  hasContext st = true ->
  renderPage_gotPage getViewport n scale (Js.Fulfilled page) st =
  (Js.Fulfilled (AwaitingRender (List.length (tasks st))),
   mkState (mkCanvas
              (canvasDimension 300 (Pdf.viewportWidth (getViewport page scale)))
              (canvasDimension 150 (Pdf.viewportHeight (getViewport page scale)))
              Blank)
           true (Some (List.length (tasks st)))
           (tasks st ++ [mkRenderTask n scale false]) (console st)).
Proof.
  intros C.
  destruct st as [c h r ts l]. simpl in C. subst h. reflexivity.
Qed.

(** C4, as stated, fails: the canvas shows page 1; the render of page 2
    finds the page, and the rasterization then rejects with an error that
    is not a cancellation.  The error is logged, and the canvas is blank:
    it was resized before the rasterization started. *)
Lemma failed_render_leaves_blank_canvas :
  let st := mkState (mkCanvas 1200 900 (Frame 1 (3 # 2))) true None [] [] in
  let r := renderPage Pdf.exactViewport 2 (3 # 2)
                      (Js.Fulfilled (Pdf.mkPage 800 600))
                      (Js.Rejected (Pdf.Error "corrupt page data")) st in
  bitmap (canvas st) = Frame 1 (3 # 2)
  /\ fst r = Js.Fulfilled Returned
  /\ console (snd r) =
     [Pdf.ConsoleError "Error rendering page:" (Pdf.Error "corrupt page data")]
  /\ bitmap (canvas (snd r)) = Blank.
Proof.
  simpl. repeat split; reflexivity.
Qed.

(** C4, amended. A render attempt that fails with an error [e] is logged
    with [console.error] and the call returns normally.  When the page
    lookup fails, the canvas keeps the previous frame.  When the
    rasterization fails, the canvas has already been resized to the new
    viewport, which clears it: the previous frame is gone and the canvas
    is blank.  Its size is the viewport's, as the canvas stores it: whole
    numbers. *)
Theorem failed_render_is_logged :
  forall (getViewport : Pdf.Page -> Q -> Pdf.Viewport)
         (st : State) (n : Z) (scale : Q) (message : string),
    hasContext st = true ->
    let e := Pdf.Error message in
    (forall result,
        let r := renderPage getViewport n scale (Js.Rejected e) result st in
        fst r = Js.Fulfilled Returned
        /\ console (snd r) =
           Pdf.ConsoleError "Error rendering page:" e :: console st
        /\ canvas (snd r) = canvas st)
    /\ (forall page,
           let r := renderPage getViewport n scale (Js.Fulfilled page)
                               (Js.Rejected e) st in
           fst r = Js.Fulfilled Returned
           /\ console (snd r) =
              Pdf.ConsoleError "Error rendering page:" e :: console st
           /\ bitmap (canvas (snd r)) = Blank
           /\ width (canvas (snd r)) =
              canvasDimension 300 (Pdf.viewportWidth (getViewport page scale))
           /\ height (canvas (snd r)) =
              canvasDimension 150 (Pdf.viewportHeight (getViewport page scale))).
Proof.
  intros getViewport st n scale message C e.
  destruct (renderPage_start_canvas st) as [Hc [Hl Hx]].
  split.
  - intros result r. unfold r, renderPage.
    unfold renderPage_gotPage, tryCatch, bind, await, catchClause, modify, ret.
    simpl. rewrite Hc, Hl. auto.
  - intros page r. unfold r, renderPage.
    rewrite renderPage_gotPage_fulfilled by (rewrite Hx; exact C).
    unfold settleTask. cbn [tasks].
    rewrite nth_error_new_task. cbn [cancelled].
    rewrite renderPage_rendered_rejected. simpl. rewrite Hl. auto.
Qed.

Lemma failed_render_is_logged_witness :
  let st := mkState (mkCanvas 1200 900 (Frame 1 (3 # 2))) true None [] [] in
  hasContext st = true
  /\ canvas (snd (renderPage Pdf.exactViewport 2 (3 # 2)
                             (Js.Rejected (Pdf.Error "corrupt page data"))
                             (Js.Fulfilled tt) st)) = canvas st.
Proof.
  intros st. split; [reflexivity|].
  exact (proj2 (proj2 (proj1 (failed_render_is_logged
                                Pdf.exactViewport
                                st 2 (3 # 2) "corrupt page data" eq_refl)
                             (Js.Fulfilled tt)))).
Defined.

(** C5, as stated, fails: render A of page 2 has its task in flight when
    render B of page 3 starts and cancels it.  The engine rejects A's task
    with [RenderingCancelledException], and A's [catch] clause logs it with
    [console.error] under the label of a render error. *)
Lemma cancelled_render_is_logged_as_error :
  let st0 := mkState (mkCanvas 1200 900 (Frame 1 (3 # 2))) true None [] [] in
  let stA := snd (renderPage_gotPage Pdf.exactViewport 2 (3 # 2)
                                     (Js.Fulfilled (Pdf.mkPage 800 600))
                                     (snd (renderPage_start st0))) in
  let stB := snd (renderPage_start stA) in
  let settled := settleTask 0 (Js.Fulfilled tt) stB in
  let r := renderPage_rendered (fst settled) (snd settled) in
  renderTaskRef stA = Some 0%nat
  /\ fst settled = Js.Rejected Pdf.RenderingCancelledException
  /\ console stB = []
  /\ console (snd r) =
     [Pdf.ConsoleError "Error rendering page:" Pdf.RenderingCancelledException].
Proof.
  simpl. repeat split; reflexivity.
Qed.

(** C5, amended. A render task cancelled by a superseding request raises
    no unhandled failure: its rejection is caught and the call returns
    normally.  The [catch] clause does not tell a cancellation from a
    failure: the [RenderingCancelledException] is logged with
    [console.error] under the same label as any render error. *)
Theorem cancelled_render_is_caught_and_logged :
  forall (st : State) (i : nat) (t : RenderTask)
         (result : Js.Settled unit Pdf.Exn),
    renderTaskRef st = Some i ->
    nth_error (tasks st) i = Some t ->
    let stB := snd (renderPage_start st) in
    let settled := settleTask i result stB in
    fst settled = Js.Rejected Pdf.RenderingCancelledException
    /\ renderPage_rendered (fst settled) (snd settled) =
       (Js.Fulfilled Returned,
        consoleError "Error rendering page:" Pdf.RenderingCancelledException stB)
    /\ (forall e st', renderPage_rendered (Js.Rejected e) st' =
                      (Js.Fulfilled Returned,
                       consoleError "Error rendering page:" e st')).
Proof.
  intros st i t result R T stB settled.
  assert (S : settled = (Js.Rejected Pdf.RenderingCancelledException, stB)).
  { unfold settled, stB. rewrite renderPage_start_state, R. simpl.
    unfold settleTask. simpl tasks.
    rewrite (cancelNth_cancels i (tasks st) t T). reflexivity. }
  rewrite S. simpl.
  split; [reflexivity|]. split; [reflexivity|].
  intros e st'. apply renderPage_rendered_rejected.
Qed.

Lemma cancelled_render_is_caught_and_logged_witness :
  let st0 := mkState (mkCanvas 1200 900 (Frame 1 (3 # 2))) true None [] [] in
  let stA := snd (renderPage_gotPage Pdf.exactViewport 2 (3 # 2)
                                     (Js.Fulfilled (Pdf.mkPage 800 600))
                                     (snd (renderPage_start st0))) in
  renderTaskRef stA = Some 0%nat
  /\ fst (settleTask 0 (Js.Fulfilled tt) (snd (renderPage_start stA))) =
     Js.Rejected Pdf.RenderingCancelledException.
Proof.
  intros st0 stA. split; [reflexivity|].
  exact (proj1 (cancelled_render_is_caught_and_logged
                  stA 0%nat (mkRenderTask 2 (3 # 2) false) (Js.Fulfilled tt)
                  eq_refl eq_refl)).
Defined.

End RendererFacts.

(** ** Blob materializer *)

Section BlobFacts.

Import Blob.

(** A string with the PDF prefix is not empty. *)
Lemma startsWith_pdfPrefix_nonempty (s : string) :
  startsWith s pdfPrefix = true -> (s =? "")%string = false.
Proof.
  destruct s; [discriminate | reflexivity].
Qed.

(** The decoder on a few payloads: a padded and an unpadded encoding of
    the bytes "%PDF-", a character outside the alphabet, and a data URL
    without a comma (whose second part is [undefined]). *)
Lemma decode_examples :
  decode "data:application/pdf;base64,JVBERi0=" =
  Some (list_ascii_of_string "%PDF-")
  /\ decode "data:application/pdf;base64,JVBERi0" =
     Some (list_ascii_of_string "%PDF-")
  /\ decode "data:application/pdf;base64,JVBERi0*" = None
  /\ decode "data:application/pdf;base64" = None.
Proof. repeat split; reflexivity. Qed.

(** C9. The code does not do what the claim says.  The content has no
    file path, and its body is a PDF data URL whose payload does not
    decode.  The hook, run as a hook, would give the string back unchanged;
    but [loadPdfFromFile] calls the hook from inside its effect, where React
    throws.  The error is caught and logged, [setPdfUrl] is never reached,
    [pdfUrl] stays [null] and the content area stays on the loading
    placeholder: the string never reaches the document loader. *)
Theorem embedded_data_never_reaches_loader :
  let body := "data:application/pdf;base64,JVBERi0*"%string in
  let content := Source.mkContent "c1" None (Some body) in
  let st := Source.loadPdfFromFile content (Source.mkState None []) in
  decode body = None
  /\ (forall createObjectURL : list ascii -> string,
         useBase64ToBlobUrl createObjectURL (Some body) = Some body)
  /\ Source.pdfUrl st = None
  /\ Source.console st =
     [Pdf.ConsoleError "[FullscreenSlideViewer] Error loading PDF:"
                       Source.invalidHookCall]
  /\ Source.contentArea st = Source.LoadingSlides.
Proof.
  cbv zeta. split; [reflexivity|]. split; [|repeat split; reflexivity].
  intros createObjectURL. reflexivity.
Qed.

End BlobFacts.

(** ** Saved-slide preview *)

Section PreviewFacts.

Import Preview.

Lemma step_pdfUrl (st : State) (ev : Event) : pdfUrl (step st ev) = pdfUrl st.
Proof.
  unfold step. destruct (pdfUrl st) eqn:E; [|exact E].
  destruct ev; simpl; [exact E|].
  unfold handleDoubleClick. destruct (_ <? _); exact E.
Qed.

Lemma step_keeps_fullscreen (st : State) (ev : Event) :
  fullscreenMode st = true -> fullscreenMode (step st ev) = true.
Proof.
  intros F. unfold step. destruct (pdfUrl st); [|exact F].
  destruct ev; simpl; [reflexivity|].
  unfold handleDoubleClick. destruct (_ <? _); simpl; [reflexivity | exact F].
Qed.

Lemma run_keeps_fullscreen (evs : list Event) :
  forall st, fullscreenMode st = true -> fullscreenMode (run st evs) = true.
Proof.
  induction evs as [|ev evs IH]; intros st F; [exact F|].
  change (run st (ev :: evs)) with (run (step st ev) evs).
  apply IH. apply step_keeps_fullscreen. exact F.
Qed.

(** C10. When the preview area is shown, the first click on it opens the
    fullscreen viewer, whatever [fullscreenMode] and [lastClickTime] were
    and with no second click needed: [onClick] is [onExpand] itself.  No
    later event of the preview closes it again. *)
Theorem first_click_opens_fullscreen :
  forall (st : State) (evs : list Event),
    pdfUrl st <> None ->
    step st Click = onExpand st
    /\ fullscreenMode (step st Click) = true
    /\ fullscreenMode (run st (Click :: evs)) = true.
Proof.
  intros st evs U.
  assert (E : step st Click = onExpand st).
  { unfold step. destruct (pdfUrl st); [reflexivity | contradiction]. }
  split; [exact E|]. split.
  - rewrite E. reflexivity.
  - change (run st (Click :: evs)) with (run (step st Click) evs).
    apply run_keeps_fullscreen. rewrite E. reflexivity.
Qed.

Lemma first_click_opens_fullscreen_witness :
  let st := mkState false (Some "/api/content/a/file"%string) 0 in
  pdfUrl st <> None
  /\ fullscreenMode st = false
  /\ fullscreenMode (run st [Click; Click; DblClick 1700000000100]) = true.
Proof.
  intros st.
  assert (U : pdfUrl st <> None) by (simpl; discriminate).
  split; [exact U|]. split; [reflexivity|].
  exact (proj2 (proj2 (first_click_opens_fullscreen
                         st [Click; DblClick 1700000000100] U))).
Defined.

End PreviewFacts.

(** * Further properties of the viewer, the upload form and the API entry *)

(** ** Keys, taps and closing *)

Section KeyFacts.

Import Navigation.

Lemma run_snoc (s : Viewer) (evs : list Event) (ev : Event) :
  run s (evs ++ [ev]) = step (run s evs) ev.
Proof. unfold run. rewrite fold_left_app. reflexivity. Qed.

Lemma run_repeat_totalSlides (ev : Event) (k : nat) (s : Viewer) :
  totalSlides (run s (repeat ev k)) = totalSlides s.
Proof.
  revert s. induction k as [|k IH]; intros s; [reflexivity|].
  change (run s (repeat ev (S k))) with (run (step s ev) (repeat ev k)).
  rewrite IH. apply step_totalSlides.
Qed.

Lemma arrow_right_repeated (k : nat) :
  forall s, currentSlide s <= totalSlides s ->
            currentSlide (run s (repeat (KeyDown "ArrowRight") k)) =
            Z.min (totalSlides s) (currentSlide s + Z.of_nat k).
Proof.
  induction k as [|k IH]; intros s R.
  - simpl. lia.
  - change (run s (repeat (KeyDown "ArrowRight") (S k)))
      with (run (handleKeyPress "ArrowRight" s) (repeat (KeyDown "ArrowRight") k)).
    rewrite IH; simpl; lia.
Qed.

Lemma arrow_left_repeated (k : nat) :
  forall s, 1 <= currentSlide s ->
            currentSlide (run s (repeat (KeyDown "ArrowLeft") k)) =
            Z.max 1 (currentSlide s - Z.of_nat k).
Proof.
  induction k as [|k IH]; intros s R.
  - simpl. lia.
  - change (run s (repeat (KeyDown "ArrowLeft") (S k)))
      with (run (handleKeyPress "ArrowLeft" s) (repeat (KeyDown "ArrowLeft") k)).
    rewrite IH; simpl; lia.
Qed.

(** X1. From a page in range, k presses of ArrowRight lead to page
    min(totalSlides, page + k) and k presses of ArrowLeft to
    max(1, page - k); so every page of the document is reached from every
    other page by arrow keys alone. *)
Theorem arrow_keys_reach_every_page :
  forall (s : Viewer) (k : nat) (target : Z),
    1 <= currentSlide s <= totalSlides s ->
    1 <= target <= totalSlides s ->
    currentSlide (run s (repeat (KeyDown "ArrowRight") k)) =
    Z.min (totalSlides s) (currentSlide s + Z.of_nat k)
    /\ currentSlide (run s (repeat (KeyDown "ArrowLeft") k)) =
       Z.max 1 (currentSlide s - Z.of_nat k)
    /\ currentSlide
         (run s (repeat (KeyDown "ArrowRight") (Z.to_nat (target - currentSlide s))
                 ++ repeat (KeyDown "ArrowLeft") (Z.to_nat (currentSlide s - target))))
       = target.
Proof.
  intros s k target R T.
  split; [apply arrow_right_repeated; lia|].
  split; [apply arrow_left_repeated; lia|].
  unfold run. rewrite fold_left_app.
  fold (run s (repeat (KeyDown "ArrowRight") (Z.to_nat (target - currentSlide s)))).
  set (s1 := run s (repeat (KeyDown "ArrowRight") (Z.to_nat (target - currentSlide s)))).
  fold (run s1 (repeat (KeyDown "ArrowLeft") (Z.to_nat (currentSlide s - target)))).
  assert (C1 : currentSlide s1 = Z.min (totalSlides s)
                 (currentSlide s + Z.of_nat (Z.to_nat (target - currentSlide s))))
    by (apply arrow_right_repeated; lia).
  rewrite arrow_left_repeated by lia.
  rewrite C1. lia.
Qed.

Lemma arrow_keys_reach_every_page_witness :
  let s := mkViewer 2 5 None None 0 true false in
  currentSlide (run s (repeat (KeyDown "ArrowRight") 7)) = 5
  /\ currentSlide (run s (repeat (KeyDown "ArrowLeft") 7)) = 1
  /\ currentSlide (run s (repeat (KeyDown "ArrowRight") (Z.to_nat (4 - 2))
                          ++ repeat (KeyDown "ArrowLeft") (Z.to_nat (2 - 4)))) = 4.
Proof.
  intros s.
  apply (arrow_keys_reach_every_page s 7 4); simpl; lia.
Defined.

Lemma step_viewerRef (s : Viewer) (ev : Event) :
  viewerRef (step s ev) = viewerRef s.
Proof.
  destruct ev; simpl; try reflexivity.
  - unfold onTouchEnd.
    repeat match goal with
           | |- context [if ?b then _ else _] => destruct b; simpl
           end; reflexivity.
  - unfold handleKeyPress.
    repeat match goal with
           | |- context [if ?b then _ else _] => destruct b; simpl
           end; reflexivity.
  - unfold handleClickNavigation.
    repeat match goal with
           | |- context [if ?b then _ else _] => destruct b; simpl
           end; reflexivity.
  - unfold handleClickNavigation.
    repeat match goal with
           | |- context [if ?b then _ else _] => destruct b; simpl
           end; reflexivity.
  - unfold handleDoubleClick. destruct (_ <? _); reflexivity.
Qed.

Lemma run_viewerRef_totalSlides (evs : list Event) :
  forall s, viewerRef (run s evs) = viewerRef s
            /\ totalSlides (run s evs) = totalSlides s.
Proof.
  induction evs as [|ev evs IH]; intros s; [split; reflexivity|].
  change (run s (ev :: evs)) with (run (step s ev) evs).
  destruct (IH (step s ev)) as [V T].
  rewrite V, T, step_viewerRef, step_totalSlides. split; reflexivity.
Qed.

(** X2. The touch handlers never navigate on a tap: a touch that starts
    and ends without a move leaves the page where it is, also right after a
    swipe, since [onTouchStart] clears [touchEnd].  A tap changes the page
    only through the click event that the browser sends after it, by the
    zone of the click position: in the middle band it changes nothing. *)
Theorem tap_navigates_by_click_zone_only :
  forall (s : Viewer) (x0 x1 x : Q) (e : MouseEvent),
    viewerRef s = true ->
    run s [TouchStart x; TouchEnd] = onTouchStart x s
    /\ currentSlide (run s (swipe x0 x1 ++ [TouchStart x; TouchEnd])) =
       currentSlide (run s (swipe x0 x1))
    /\ currentSlide (run s (swipe x0 x1 ++ [TouchStart x; TouchEnd; Click e])) =
       navigate (zone e) (totalSlides s) (currentSlide (run s (swipe x0 x1))).
Proof.
  intros s x0 x1 x e V.
  assert (T : forall s', run s' [TouchStart x; TouchEnd] = onTouchStart x s').
  { intros s'. unfold run. simpl. unfold onTouchEnd. simpl.
    rewrite orb_true_r. reflexivity. }
  destruct (run_viewerRef_totalSlides (swipe x0 x1) s) as [V1 T1].
  split; [apply T|]. split.
  - unfold run. rewrite fold_left_app.
    fold (run s (swipe x0 x1)).
    fold (run (run s (swipe x0 x1)) [TouchStart x; TouchEnd]).
    rewrite T. reflexivity.
  - unfold run. rewrite fold_left_app.
    fold (run s (swipe x0 x1)).
    set (s1 := run s (swipe x0 x1)) in *.
    change (fold_left step [TouchStart x; TouchEnd; Click e] s1)
      with (handleClickNavigation e (run s1 [TouchStart x; TouchEnd])).
    rewrite T.
    rewrite handleClickNavigation_zone by (simpl; rewrite V1; exact V).
    simpl. rewrite T1. reflexivity.
Qed.

Lemma tap_navigates_by_click_zone_only_witness :
  let s := mkViewer 2 3 None None 0 true false in
  currentSlide (run s (swipe 300 100 ++ [TouchStart 200; TouchEnd;
                                         Click (mkMouseEvent 0 200 0 400)])) =
  navigate (zone (mkMouseEvent 0 200 0 400)) (totalSlides s)
           (currentSlide (run s (swipe 300 100))).
Proof.
  intros s.
  exact (proj2 (proj2 (tap_navigates_by_click_zone_only
                         s 300 100 200 (mkMouseEvent 0 200 0 400) eq_refl))).
Defined.

Lemma onTouchMove_overrides (a b : Q) (s : Viewer) :
  onTouchMove b (onTouchMove a s) = onTouchMove b s.
Proof. reflexivity. Qed.

Lemma run_moves (ms : list Q) :
  forall (s : Viewer) (x x1 : Q),
    run (onTouchMove x s) (map TouchMove (ms ++ [x1])) = onTouchMove x1 s.
Proof.
  induction ms as [|m ms IH]; intros s x x1; [reflexivity|].
  change (run (onTouchMove x s) (map TouchMove ((m :: ms) ++ [x1])))
    with (run (onTouchMove m (onTouchMove x s)) (map TouchMove (ms ++ [x1]))).
  rewrite onTouchMove_overrides. apply IH.
Qed.

(** X3. Only the start of a drag and its last position count: a gesture
    with any number of intermediate [touchmove] events leaves exactly the
    state of the gesture that moves straight to the last position. *)
Theorem swipe_uses_last_move :
  forall (s : Viewer) (x0 x1 : Q) (ms : list Q),
    run s (TouchStart x0 :: map TouchMove (ms ++ [x1]) ++ [TouchEnd]) =
    run s (swipe x0 x1).
Proof.
  intros s x0 x1 ms.
  change (run s (TouchStart x0 :: map TouchMove (ms ++ [x1]) ++ [TouchEnd]))
    with (run (onTouchStart x0 s) (map TouchMove (ms ++ [x1]) ++ [TouchEnd])).
  rewrite run_snoc.
  destruct ms as [|m ms]; [reflexivity|].
  change (run (onTouchStart x0 s) (map TouchMove ((m :: ms) ++ [x1])))
    with (run (onTouchMove m (onTouchStart x0 s)) (map TouchMove (ms ++ [x1]))).
  rewrite run_moves. reflexivity.
Qed.

(** Events other than a double click, a click on the Close button and
    Escape leave [closed] and [lastClickTime] alone. *)
Lemma step_keeps_open (s : Viewer) (ev : Event) :
  match ev with
  | DblClick _ | CloseClick _ => False
  | KeyDown k => k <> "Escape"%string
  | _ => True
  end ->
  closed (step s ev) = closed s /\ lastClickTime (step s ev) = lastClickTime s.
Proof.
  destruct ev; simpl; intros H; try (split; reflexivity); try contradiction.
  - unfold onTouchEnd.
    repeat match goal with
           | |- context [if ?b then _ else _] => destruct b; simpl
           end; split; reflexivity.
  - unfold handleKeyPress.
    destruct ((key =? "ArrowLeft")%string || (key =? "ArrowUp")%string);
      [split; reflexivity|].
    destruct ((key =? "ArrowRight")%string || (key =? "ArrowDown")%string);
      [split; reflexivity|].
    destruct (key =? "Escape")%string eqn:E; [|split; reflexivity].
    apply String.eqb_eq in E. contradiction.
  - unfold handleClickNavigation.
    repeat match goal with
           | |- context [if ?b then _ else _] => destruct b; simpl
           end; split; reflexivity.
Qed.

Lemma run_keeps_open (evs : list Event) :
  forall s,
    Forall (fun ev => match ev with
                      | DblClick _ | CloseClick _ => False
                      | KeyDown k => k <> "Escape"%string
                      | _ => True
                      end) evs ->
    closed (run s evs) = closed s /\ lastClickTime (run s evs) = lastClickTime s.
Proof.
  induction evs as [|ev evs IH]; intros s F; [split; reflexivity|].
  inversion F as [|? ? Hev Hevs]; subst.
  change (run s (ev :: evs)) with (run (step s ev) evs).
  destruct (IH (step s ev) Hevs) as [C L].
  destruct (step_keeps_open s ev Hev) as [C' L'].
  split; congruence.
Qed.

(** X4. Navigation never closes the viewer: after any sequence of touch
    events, clicks on the content area outside the Close button and keys
    other than Escape, [onClose] has not been called.  A click on the Close
    button and the Escape key do call it. *)
Theorem navigation_never_closes :
  forall (s : Viewer) (evs : list Event),
    Forall (fun ev => match ev with
                      | DblClick _ | CloseClick _ => False
                      | KeyDown k => k <> "Escape"%string
                      | _ => True
                      end) evs ->
    closed (run s evs) = closed s
    /\ (forall e, closed (step (run s evs) (CloseClick e)) = true)
    /\ closed (step (run s evs) (KeyDown "Escape")) = true.
Proof.
  intros s evs F. split; [apply (run_keeps_open evs s F)|]. split.
  - intros e. cbn [step]. unfold handleClickNavigation.
    repeat match goal with
           | |- context [if ?b then _ else _] => destruct b; simpl
           end; reflexivity.
  - reflexivity.
Qed.

Lemma navigation_never_closes_witness :
  let s := mkViewer 2 5 None None 0 true false in
  closed (run s [KeyDown "ArrowRight"; Click (mkMouseEvent 0 10 0 400);
                 TouchStart 300; TouchMove 100; TouchEnd; KeyDown "Enter"]) = false.
Proof.
  intros s.
  refine (proj1 (navigation_never_closes s _ _)).
  repeat constructor; discriminate.
Defined.

(** X5. In a viewer just mounted ([lastClickTime] is 0), a [dblclick]
    event at a clock time of 300 ms or more does not close the viewer,
    whatever navigation came before; a second [dblclick] event less than
    300 ms after the first one does. *)
Theorem double_click_exit_needs_two :
  forall (evs : list Event) (t1 t2 : Z),
    Forall (fun ev => match ev with
                      | DblClick _ | CloseClick _ => False
                      | KeyDown k => k <> "Escape"%string
                      | _ => True
                      end) evs ->
    300 <= t1 ->
    t2 - t1 < 300 ->
    closed (run initial (evs ++ [DblClick t1])) = false
    /\ closed (run initial (evs ++ [DblClick t1; DblClick t2])) = true.
Proof.
  intros evs t1 t2 F H1 H2.
  destruct (run_keeps_open evs initial F) as [C L].
  simpl in C, L.
  assert (E1 : run initial (evs ++ [DblClick t1]) =
               handleDoubleClick t1 (run initial evs)) by apply run_snoc.
  assert (N : (t1 - lastClickTime (run initial evs) <? 300) = false)
    by (rewrite L; apply Z.ltb_ge; lia).
  split.
  - rewrite E1. unfold handleDoubleClick. rewrite N. simpl. exact C.
  - replace (evs ++ [DblClick t1; DblClick t2])
      with ((evs ++ [DblClick t1]) ++ [DblClick t2])
      by (rewrite <- app_assoc; reflexivity).
    rewrite run_snoc, E1. simpl.
    unfold handleDoubleClick at 1. rewrite N. simpl.
    assert (Y : (t2 - t1 <? 300) = true) by (apply Z.ltb_lt; lia).
    unfold handleDoubleClick. simpl. rewrite Y. reflexivity.
Qed.

Lemma double_click_exit_needs_two_witness :
  closed (run initial ([KeyDown "ArrowRight"] ++ [DblClick 1700000000000])) = false
  /\ closed (run initial ([KeyDown "ArrowRight"]
                          ++ [DblClick 1700000000000; DblClick 1700000000250])) = true.
Proof.
  apply (double_click_exit_needs_two [KeyDown "ArrowRight"]
                                     1700000000000 1700000000250).
  - repeat constructor; discriminate.
  - lia.
  - lia.
Defined.

(** X6. For a touch whose start and last position are both different
    from 0: a drag of at most 50 pixels either way leaves the page where it
    is; a drag of more than 50 pixels to the left moves to the next page and
    one of more than 50 pixels to the right to the previous page, both
    clamped to the range from 1 to [totalSlides]. *)
Theorem swipe_beyond_threshold_moves_one_page :
  forall (s : Viewer) (x0 x1 : Q),
    1 <= currentSlide s <= totalSlides s ->
    ~ (x0 == 0)%Q -> ~ (x1 == 0)%Q ->
    ((-50 <= x0 - x1)%Q -> (x0 - x1 <= 50)%Q ->
     currentSlide (run s (swipe x0 x1)) = currentSlide s)
    /\ ((50 < x0 - x1)%Q ->
        currentSlide (run s (swipe x0 x1)) =
        Z.min (totalSlides s) (currentSlide s + 1))
    /\ ((x0 - x1 < -50)%Q ->
        currentSlide (run s (swipe x0 x1)) = Z.max 1 (currentSlide s - 1)).
Proof.
  intros s x0 x1 R N0 N1.
  destruct (swipe_currentSlide s x0 x1 R N0 N1) as [A [B C]].
  split; [intros L U; exact (A U L)|].
  split; [intros H; rewrite (B H); lia | intros H; rewrite (C H); lia].
Qed.

Lemma swipe_beyond_threshold_moves_one_page_witness :
  let s := mkViewer 2 3 None None 0 true false in
  currentSlide (run s (swipe 300 100)) = Z.min (totalSlides s) (currentSlide s + 1).
Proof.
  intros s.
  refine (proj1 (proj2 (swipe_beyond_threshold_moves_one_page s 300 100 _ _ _)) _).
  - simpl. lia.
  - intro E. discriminate E.
  - intro E. discriminate E.
  - reflexivity.
Defined.

End KeyFacts.

(** ** The blob hook *)

Section HookFacts.

Import Blob.

Variable createObjectURL : list ascii -> string.

Lemma split_without_separator (sep : ascii) (s : string) :
  ~ In sep (list_ascii_of_string s) -> split sep s = [s].
Proof.
  induction s as [|c r IH]; intros N; [reflexivity|].
  simpl in *.
  destruct (Ascii.eqb c sep) eqn:E.
  - apply Ascii.eqb_eq in E. exfalso. apply N. left. exact E.
  - rewrite IH by (intro H; apply N; right; exact H). reflexivity.
Qed.

(** X7. What the hook returns once its timer has run depends on the
    latest input only, not on earlier inputs or on a timer still pending for
    one of them (the cleanup clears it); the timer runs once.  Until the
    timer runs, a new input with the PDF data prefix leaves the previous
    value in place, and any other input resets it to [null] at once. *)
Theorem hook_settles_on_latest_input :
  forall (st : State) (base64String : option string),
    blobUrl (timerFires createObjectURL (effect base64String st)) =
    useBase64ToBlobUrl createObjectURL base64String
    /\ timerFires createObjectURL
         (timerFires createObjectURL (effect base64String st)) =
       timerFires createObjectURL (effect base64String st)
    /\ blobUrl (effect base64String st) =
       match base64String with
       | Some s => if startsWith s pdfPrefix then blobUrl st else None
       | None => None
       end.
Proof.
  intros st [s|]; unfold useBase64ToBlobUrl, effect.
  - destruct (startsWith s pdfPrefix) eqn:P.
    + rewrite (startsWith_pdfPrefix_nonempty s P). cbn [orb negb].
      unfold timerFires. cbn [timer].
      destruct (tryBlock createObjectURL s);
        (split; [reflexivity|]; split; reflexivity).
    + rewrite orb_true_r. split; [reflexivity|]. split; reflexivity.
  - split; [reflexivity|]. split; reflexivity.
Qed.

(** X8. Before its timer has run, on the first render, the hook returns
    [null] for every input.  Once the effect and the timer it sets have
    run, the hook returns [null] exactly for an input that is absent or does
    not start with the PDF data prefix; for every input with the prefix it
    then returns a locator: the created one when the payload decodes, the
    input itself when it does not. *)
Theorem hook_null_iff_not_pdf_data :
  forall (base64String : option string),
    blobUrl (effect base64String initial) = None
    /\ (useBase64ToBlobUrl createObjectURL base64String = None <->
        match base64String with
        | None => True
        | Some s => startsWith s pdfPrefix = false
        end)
    /\ (forall s : string,
           base64String = Some s ->
           startsWith s pdfPrefix = true ->
           useBase64ToBlobUrl createObjectURL base64String =
           Some (match decode s with
                 | Some bytes => createObjectURL bytes
                 | None => s
                 end)).
Proof.
  intros [s|]; unfold useBase64ToBlobUrl, effect.
  - destruct (startsWith s pdfPrefix) eqn:P.
    + rewrite (startsWith_pdfPrefix_nonempty s P). cbn [orb negb].
      unfold timerFires. cbn [timer initial blobUrl].
      split; [reflexivity|]. split.
      * unfold tryBlock. destruct (decode s); simpl; split; discriminate.
      * intros s' E _. injection E as <-.
        unfold tryBlock. destruct (decode s); reflexivity.
    + rewrite orb_true_r. cbn [blobUrl timerFires timer].
      split; [reflexivity|]. split; [tauto|].
      intros s' E P'. injection E as <-. rewrite P in P'. discriminate P'.
  - cbn [blobUrl timerFires timer].
    split; [reflexivity|]. split; [tauto|].
    intros s' E. discriminate E.
Qed.

(** X9. A string with the PDF data prefix that holds no comma has no
    payload to decode: the hook passes it through unchanged. *)
Theorem data_url_without_comma_passes_through :
  forall (s : string),
    startsWith s pdfPrefix = true ->
    ~ In ","%char (list_ascii_of_string s) ->
    useBase64ToBlobUrl createObjectURL (Some s) = Some s.
Proof.
  intros s P N.
  unfold useBase64ToBlobUrl, effect.
  rewrite (startsWith_pdfPrefix_nonempty s P), P. cbn [orb negb].
  unfold timerFires. cbn [timer initial blobUrl].
  unfold tryBlock, decode. rewrite (split_without_separator _ s N).
  reflexivity.
Qed.

(** X30. The hook run as a hook, on its own: for every string with the
    PDF data prefix whose base64 payload fails to decode, the hook returns,
    once its timer has run, the original string unchanged: the failure is
    caught by the timer callback, nothing is thrown. *)
Theorem decode_failure_returns_original :
  forall (base64String : string),
    startsWith base64String pdfPrefix = true ->
    decode base64String = None ->
    useBase64ToBlobUrl createObjectURL (Some base64String) = Some base64String.
Proof.
  intros s P D.
  unfold useBase64ToBlobUrl, effect.
  rewrite (startsWith_pdfPrefix_nonempty s P), P. cbn [orb negb].
  unfold timerFires. cbn [timer initial blobUrl].
  unfold tryBlock. rewrite D. reflexivity.
Qed.

End HookFacts.

Lemma decode_failure_returns_original_witness :
  let s := "data:application/pdf;base64,JVBERi0*"%string in
  let createObjectURL := fun _ : list ascii => "blob:0"%string in
  Blob.startsWith s Blob.pdfPrefix = true
  /\ Blob.decode s = None
  /\ Blob.useBase64ToBlobUrl createObjectURL (Some s) = Some s.
Proof.
  intros s createObjectURL. split; [reflexivity|]. split; [reflexivity|].
  exact (decode_failure_returns_original createObjectURL s eq_refl eq_refl).
Defined.


Lemma data_url_without_comma_passes_through_witness :
  let s := "data:application/pdf;base64"%string in
  Blob.useBase64ToBlobUrl (fun _ : list ascii => "blob:0"%string) (Some s) = Some s.
Proof.
  intros s.
  apply (data_url_without_comma_passes_through (fun _ => "blob:0"%string) s).
  - reflexivity.
  - simpl. intros H.
    repeat (destruct H as [H|H]; [discriminate H|]). exact H.
Defined.

(** ** Scale and canvas *)

Section CanvasFacts.

Import Scale Renderer.

(** X10. For a container and a page of positive width and height the
    computed scale is positive. *)
Theorem optimal_scale_is_positive :
  forall (container : Container) (page : Pdf.Page),
    (0 < clientWidth container)%Q -> (0 < clientHeight container)%Q ->
    (0 < Pdf.pageWidth page)%Q -> (0 < Pdf.pageHeight page)%Q ->
    (0 < optimalScale container page)%Q.
Proof.
  intros [vw vh] [pw ph]. simpl. intros Vw Vh Pw Ph.
  unfold optimalScale. simpl.
  apply Q.min_glb_lt.
  - apply Qlt_shift_div_l; [exact Pw|]. rewrite Qmult_0_l. exact Vw.
  - apply Qlt_shift_div_l; [exact Ph|]. rewrite Qmult_0_l. exact Vh.
Qed.

Lemma optimal_scale_is_positive_witness :
  (0 < optimalScale (mkContainer 1200 900) (Pdf.mkPage 600 800))%Q.
Proof.
  apply (optimal_scale_is_positive (mkContainer 1200 900) (Pdf.mkPage 600 800));
    reflexivity.
Defined.

(** X12. A call of [renderPage] that runs to its end without being
    superseded, on a canvas with a drawing context: when the page is found
    and drawn, the canvas shows that page at that scale, its width and
    height are those of the engine's viewport as the canvas stores them
    (whole numbers, the fraction dropped), [renderTaskRef] is cleared and
    nothing is logged. *)
Theorem completed_render_shows_page :
  forall (getViewport : Pdf.Page -> Q -> Pdf.Viewport)
         (st : State) (n : Z) (scale : Q) (page : Pdf.Page),
    hasContext st = true ->
    let r := renderPage getViewport n scale (Js.Fulfilled page)
                        (Js.Fulfilled tt) st in
    fst r = Js.Fulfilled Returned
    /\ canvas (snd r) =
       mkCanvas (canvasDimension 300 (Pdf.viewportWidth (getViewport page scale)))
                (canvasDimension 150 (Pdf.viewportHeight (getViewport page scale)))
                (Frame n scale)
    /\ renderTaskRef (snd r) = None
    /\ console (snd r) = console st.
Proof.
  intros getViewport st n scale page C r.
  destruct (renderPage_start_canvas st) as [Hc [Hl Hx]].
  unfold r, renderPage.
  rewrite renderPage_gotPage_fulfilled by (rewrite Hx; exact C).
  unfold settleTask. cbn [tasks].
  rewrite nth_error_new_task. cbn [cancelled taskPage taskScale].
  simpl. rewrite Hl. auto.
Qed.

Lemma completed_render_shows_page_witness :
  let st := mkState (mkCanvas 300 150 Blank) true None [] [] in
  canvas (snd (renderPage Pdf.exactViewport 2 (12 # 11)
                          (Js.Fulfilled (Pdf.mkPage 612 792))
                          (Js.Fulfilled tt) st)) =
  mkCanvas 667 864 (Frame 2 (12 # 11)).
Proof.
  intros st.
  destruct (completed_render_shows_page Pdf.exactViewport st 2 (12 # 11)
                                        (Pdf.mkPage 612 792) eq_refl)
    as [_ [E _]].
  rewrite E. reflexivity.
Defined.

Lemma renderPage_gotPage_without_context
      (getViewport : Pdf.Page -> Q -> Pdf.Viewport)
      (n : Z) (scale : Q) (page : Pdf.Page) (st : State) :
  hasContext st = false ->
  renderPage_gotPage getViewport n scale (Js.Fulfilled page) st =
  (Js.Fulfilled Returned, st).
Proof.
  intros C. destruct st as [c h r ts l]. simpl in C. subst h. reflexivity.
Qed.

(** X13. Whatever the page lookup and the rasterization do, a call of
    [renderPage] that nothing interleaves with returns normally: its promise
    is never rejected, and it logs at most one error. *)
Theorem renderPage_never_rejects :
  forall (getViewport : Pdf.Page -> Q -> Pdf.Viewport)
         (st : State) (n : Z) (scale : Q)
         (pageOutcome : Js.Settled Pdf.Page Pdf.Exn)
         (result : Js.Settled unit Pdf.Exn),
    let r := renderPage getViewport n scale pageOutcome result st in
    fst r = Js.Fulfilled Returned
    /\ (console (snd r) = console st
        \/ exists e, console (snd r) =
                     Pdf.ConsoleError "Error rendering page:" e :: console st).
Proof.
  intros getViewport st n scale pageOutcome result r.
  destruct (renderPage_start_canvas st) as [Hc [Hl Hx]].
  unfold r, renderPage.
  destruct pageOutcome as [page|e].
  - destruct (hasContext st) eqn:C.
    + rewrite renderPage_gotPage_fulfilled by exact Hx.
      unfold settleTask. cbn [tasks].
      rewrite nth_error_new_task. cbn [cancelled].
      destruct result as [u|e]; simpl; rewrite Hl.
      * split; [reflexivity | left; reflexivity].
      * split; [reflexivity | right; exists e; reflexivity].
    + rewrite renderPage_gotPage_without_context by exact Hx.
      simpl. rewrite Hl.
      split; [reflexivity | left; reflexivity].
  - simpl. rewrite Hl. split; [reflexivity | right; exists e; reflexivity].
Qed.

End CanvasFacts.

(** ** Loading *)

Section LoadingFacts.

Import Loader.

Lemma step_without_fulfilment (st : State) (ev : Event) :
  match ev with
  | Settle _ (Js.Fulfilled _) => False
  | _ => True
  end ->
  pdfDoc (step st ev) = pdfDoc st /\ viewer (step st ev) = viewer st.
Proof.
  destruct ev as [u|i [ps|e]]; simpl; intros H; try contradiction.
  - unfold setUrl, effect.
    destruct (u =? url st)%string; simpl; [auto|].
    destruct (u =? "")%string; simpl; auto.
  - unfold loadPdf_resume. destruct (nth_error (pending st) i); simpl; auto.
Qed.

(** X14. A load that fails never changes the loaded document or the page
    state of the viewer: along any sequence of source changes and rejected
    loads, [pdfDoc], [totalSlides] and [currentSlide] stay as they were. *)
Theorem failed_loads_change_nothing :
  forall (st : State) (evs : list Event),
    Forall (fun ev => match ev with
                      | Settle _ (Js.Fulfilled _) => False
                      | _ => True
                      end) evs ->
    pdfDoc (run st evs) = pdfDoc st /\ viewer (run st evs) = viewer st.
Proof.
  intros st evs. revert st.
  induction evs as [|ev evs IH]; intros st F; [split; reflexivity|].
  inversion F as [|? ? Hev Hevs]; subst.
  change (run st (ev :: evs)) with (run (step st ev) evs).
  destruct (IH (step st ev) Hevs) as [D V].
  destruct (step_without_fulfilment st ev Hev) as [D' V'].
  split; congruence.
Qed.

Lemma failed_loads_change_nothing_witness :
  let st := mount "/api/content/a/file" Navigation.initial in
  pdfDoc (run st [SetUrl "/api/content/b/file";
                  Settle 0 (Js.Rejected (Pdf.Error "Missing PDF"));
                  Settle 0 (Js.Rejected (Pdf.Error "Missing PDF"))]) = None.
Proof.
  intros st.
  refine (proj1 (failed_loads_change_nothing st _ _)).
  repeat constructor.
Defined.

End LoadingFacts.

(** ** The upload form *)

Section UploadFacts.

Import Upload.

Lemma handleFileChange_keeps_uploads (f : option File) (st : State) :
  inFlight (handleFileChange f st) = inFlight st
  /\ isSaving (handleFileChange f st) = isSaving st
  /\ uploaded (handleFileChange f st) = uploaded st
  /\ autoTitle (handleFileChange f st) = autoTitle st
  /\ folderPath (handleFileChange f st) = folderPath st
  /\ lessonId (handleFileChange f st) = lessonId st.
Proof.
  unfold handleFileChange. destruct f as [f|]; [|repeat split; reflexivity].
  destruct (fileType f =? "application/pdf")%string; simpl;
    unfold setPreviewUrl; simpl;
    match goal with
    | |- context [if ?b then _ else _] => destruct b
    end; simpl; repeat split; reflexivity.
Qed.

Lemma step_singleFlight (st : State) (ev : Event) :
  singleFlight st -> singleFlight (step st ev).
Proof.
  unfold singleFlight. intros [L [S [U D]]].
  destruct ev as [f| |o|r]; simpl.
  - destruct (handleFileChange_keeps_uploads f st) as [E1 [E2 [E3 _]]].
    rewrite E1, E2, E3. auto.
  - unfold handleSubmit. destruct (file st) as [f|]; [|auto].
    destruct (negb (Text.truthy (autoTitle st)) || isSaving st) eqn:G; [auto|].
    apply orb_false_iff in G. destruct G as [_ G].
    assert (I : inFlight st = []).
    { destruct (inFlight st) eqn:E; [reflexivity|].
      assert (X : isSaving st = true) by (apply S; discriminate). congruence. }
    assert (U0 : uploaded st <> 1%nat).
    { intro X. destruct (D X) as [Y _]. congruence. }
    simpl. rewrite I. simpl.
    repeat split; intros; auto; try lia; try contradiction.
  - unfold handleSubmit_resume.
    destruct (inFlight st) as [|fd rest] eqn:E;
      [rewrite E; repeat split; intros; auto; try contradiction;
       apply D; assumption|].
    assert (R : rest = []) by (destruct rest; [reflexivity | simpl in L; lia]).
    assert (X : isSaving st = true) by (apply S; discriminate).
    assert (U0 : uploaded st = 0%nat).
    { destruct (Nat.eq_dec (uploaded st) 1) as [Y|Y]; [|lia].
      destruct (D Y) as [_ Z]. discriminate Z. }
    subst rest. destruct o as [u|e]; simpl;
      repeat split; intros; auto; try lia; try congruence.
  - auto.
Qed.

(** X15. Along every sequence of file selections, submits, settled
    uploads and title updates of a form, at most one upload is in flight, at
    most one upload ever succeeds, and the form shows itself as saving
    whenever an upload is in flight or has succeeded: a second submit cannot
    send the file twice. *)
Theorem upload_is_single_flight :
  forall (lessonId : string) (evs : list Event),
    singleFlight (run (initial lessonId) evs).
Proof.
  intros l evs.
  assert (G : forall st, singleFlight st -> singleFlight (run st evs)).
  { induction evs as [|ev evs IH]; intros st I; [exact I|].
    change (run st (ev :: evs)) with (run (step st ev) evs).
    apply IH. apply step_singleFlight. exact I. }
  apply G. unfold singleFlight, initial. simpl.
  repeat split; try lia; try discriminate.
  intro X. exfalso. apply X. reflexivity.
Qed.

Lemma step_urlsAccounted (st : State) (ev : Event) :
  urlsAccounted st -> urlsAccounted (step st ev).
Proof.
  unfold urlsAccounted. intros [P [B C]].
  destruct ev as [f| |o|r]; simpl.
  - unfold handleFileChange.
    destruct f as [f|]; [|split; [exact P | split; [exact B | exact C]]].
    destruct (fileType f =? "application/pdf")%string.
    + simpl. unfold setPreviewUrl. simpl.
      destruct (previewUrl st) as [old|] eqn:Pu; simpl.
      * destruct (P old eq_refl) as [Lo No].
        assert (Ne : (nextUrl st =? old)%nat = false) by (apply Nat.eqb_neq; lia).
        rewrite Ne. simpl. split; [|split].
        -- intros u Eu. injection Eu as <-. split; [lia|].
           intros [X|X]; [lia|]. apply B in X. lia.
        -- intros u [X|X]; [lia|]. apply B in X. lia.
        -- intros u Lu.
           destruct (Nat.eq_dec u (nextUrl st)) as [->|N]; [right; reflexivity|].
           left. assert (Lt : (u < nextUrl st)%nat) by lia.
           destruct (C u Lt) as [X|X]; [right; exact X|].
           injection X as <-. left. reflexivity.
      * split; [|split].
        -- intros u Eu. injection Eu as <-. split; [lia|].
           intros X. apply B in X. lia.
        -- intros u X. apply B in X. lia.
        -- intros u Lu.
           destruct (Nat.eq_dec u (nextUrl st)) as [->|N]; [right; reflexivity|].
           left. assert (Lt : (u < nextUrl st)%nat) by lia.
           destruct (C u Lt) as [X|X]; [exact X | discriminate X].
    + simpl. unfold setPreviewUrl. simpl.
      destruct (previewUrl st) as [old|] eqn:Pu; simpl.
      * destruct (P old eq_refl) as [Lo No].
        split; [intros u Eu; discriminate Eu|]. split.
        -- intros u [X|X]; [lia | apply B; exact X].
        -- intros u Lu. left. destruct (C u Lu) as [X|X]; [right; exact X|].
           injection X as <-. left. reflexivity.
      * rewrite Pu. split; [exact P|]. split; [exact B | exact C].
  - unfold handleSubmit. destruct (file st);
      [|split; [exact P | split; [exact B | exact C]]].
    destruct (negb (Text.truthy (autoTitle st)) || isSaving st);
      (split; [exact P | split; [exact B | exact C]]).
  - unfold handleSubmit_resume.
    destruct (inFlight st); [split; [exact P | split; [exact B | exact C]]|].
    destruct o; (split; [exact P | split; [exact B | exact C]]).
  - split; [exact P | split; [exact B | exact C]].
Qed.

Lemma liveUrls_spec (st : State) (u : nat) :
  In u (liveUrls st) <-> (u < nextUrl st)%nat /\ ~ In u (revoked st).
Proof.
  unfold liveUrls. rewrite filter_In, in_seq, negb_true_iff.
  split.
  - intros [[_ L] E]. split; [lia|].
    intro H. assert (X : existsb (Nat.eqb u) (revoked st) = true).
    { apply existsb_exists. exists u. split; [exact H | apply Nat.eqb_refl]. }
    congruence.
  - intros [L N]. split; [lia|].
    destruct (existsb (Nat.eqb u) (revoked st)) eqn:E; [|reflexivity].
    apply existsb_exists in E. destruct E as [v [Hv Ev]].
    apply Nat.eqb_eq in Ev. subst v. contradiction.
Qed.

(** X16. The preview's object URLs do not leak: along every sequence of
    events of a form, the object URLs handed out and not yet revoked are
    exactly the current [previewUrl], one URL or none; selecting another
    file or a file that is no PDF revokes the URL of the previous
    selection. *)
Theorem preview_urls_do_not_leak :
  forall (lessonId : string) (evs : list Event) (u : nat),
    In u (liveUrls (run (initial lessonId) evs)) <->
    previewUrl (run (initial lessonId) evs) = Some u.
Proof.
  intros l evs u.
  assert (G : forall st, urlsAccounted st -> urlsAccounted (run st evs)).
  { induction evs as [|ev evs IH]; intros st I; [exact I|].
    change (run st (ev :: evs)) with (run (step st ev) evs).
    apply IH. apply step_urlsAccounted. exact I. }
  assert (I : urlsAccounted (run (initial l) evs)).
  { apply G. unfold urlsAccounted, initial. simpl.
    split; [intros v E; discriminate E|].
    split; [intros v []|]. intros v L. lia. }
  destruct I as [P [B C]].
  rewrite liveUrls_spec. split.
  - intros [L N]. destruct (C u L) as [X|X]; [contradiction | exact X].
  - intros E. exact (P u E).
Qed.

(** X17. After a failed upload the form can be used again: from a form
    with a file and a title that is not saving, a submit, the rejection of
    the upload and a second submit leave one upload in flight, with the same
    form data as the first, one error toast and one logged error. *)
Theorem failed_upload_can_be_retried :
  forall (st : State) (f : File) (e : Pdf.Exn),
    file st = Some f ->
    Text.truthy (autoTitle st) = true ->
    isSaving st = false ->
    inFlight st = [] ->
    let st1 := run st [Submit] in
    let st3 := run st [Submit; UploadSettled (Js.Rejected e); Submit] in
    inFlight st1 = [formData f st]
    /\ inFlight st3 = [formData f st]
    /\ isSaving st3 = true
    /\ uploaded st3 = uploaded st
    /\ toasts st3 = mkToast "Failed to upload slides." "error" :: toasts st
    /\ console st3 = Pdf.ConsoleError "Upload error:" e :: console st.
Proof.
  intros st f e F T S I st1 st3.
  assert (E1 : handleSubmit st =
               mkState (lessonId st) (file st) (previewUrl st) (autoTitle st)
                       (folderPath st) true (nextUrl st) (revoked st)
                       [formData f st] (toasts st) (uploaded st) (console st)).
  { unfold handleSubmit. rewrite F, T, S, I. reflexivity. }
  unfold st1, st3, run. cbn [fold_left step].
  rewrite E1. cbn [handleSubmit_resume inFlight].
  unfold handleSubmit. cbn [file autoTitle isSaving]. rewrite F, T.
  cbn [negb orb inFlight app isSaving uploaded toasts console].
  repeat split; reflexivity.
Qed.

Lemma failed_upload_can_be_retried_witness :
  let f := mkFile "slides.pdf" "application/pdf" 1024 in
  let st := run (initial "lesson1") [FileChange (Some f)] in
  inFlight (run st [Submit; UploadSettled (Js.Rejected (Pdf.Error "Network Error"));
                    Submit]) = [formData f st].
Proof.
  intros f st.
  exact (proj1 (proj2 (failed_upload_can_be_retried
                         st f (Pdf.Error "Network Error")
                         eq_refl eq_refl eq_refl eq_refl))).
Defined.

(** X18. Selecting a file that is not a PDF discards the selection made
    before: the file and its preview are gone, an error toast is shown, and
    a submit right after it uploads nothing. *)
Theorem non_pdf_selection_discards_file :
  forall (st : State) (f : File),
    fileType f <> "application/pdf"%string ->
    let st' := run st [FileChange (Some f); Submit] in
    file st' = None
    /\ previewUrl st' = None
    /\ inFlight st' = inFlight st
    /\ isSaving st' = isSaving st
    /\ toasts st' = mkToast "Please select a valid PDF file." "error" :: toasts st.
Proof.
  intros st f N st'.
  unfold st', run. simpl. unfold handleFileChange.
  destruct (fileType f =? "application/pdf")%string eqn:E.
  - apply String.eqb_eq in E. contradiction.
  - unfold setPreviewUrl. simpl.
    destruct (previewUrl st) eqn:Pu; simpl; unfold handleSubmit; simpl;
      rewrite ?Pu; repeat split; reflexivity.
Qed.

Lemma non_pdf_selection_discards_file_witness :
  let pdf := mkFile "slides.pdf" "application/pdf" 1024 in
  let png := mkFile "photo.png" "image/png" 2048 in
  let st := run (initial "lesson1") [FileChange (Some pdf)] in
  file st = Some pdf
  /\ inFlight (run st [FileChange (Some png); Submit]) = [].
Proof.
  intros pdf png st. split; [reflexivity|].
  refine (proj1 (proj2 (proj2 (non_pdf_selection_discards_file st png _)))).
  simpl. discriminate.
Defined.

End UploadFacts.

(** ** Title and folder of an upload *)

Section TitleFacts.

Import TitlePath.

Lemma length_append (a b : string) :
  String.length (a ++ b) = (String.length a + String.length b)%nat.
Proof.
  induction a as [|c a IH]; simpl; [reflexivity | rewrite IH; reflexivity].
Qed.

Lemma substring_append_skip (a t : string) (n m : nat) :
  String.substring (String.length a + n) m (a ++ t) = String.substring n m t.
Proof.
  induction a as [|c a IH]; simpl; [reflexivity | exact IH].
Qed.

Lemma endsWith_append (a t suffix : string) :
  Text.endsWith t suffix = true -> Text.endsWith (a ++ t) suffix = true.
Proof.
  unfold Text.endsWith. intros H.
  apply andb_true_iff in H. destruct H as [E L].
  apply Nat.leb_le in L.
  apply andb_true_iff. split.
  - rewrite length_append.
    replace (String.length a + String.length t - String.length suffix)%nat
      with (String.length a + (String.length t - String.length suffix))%nat by lia.
    rewrite substring_append_skip. exact E.
  - apply Nat.leb_le. rewrite length_append. lia.
Qed.

Lemma endsWith_cons (c : ascii) (t suffix : string) :
  Text.endsWith t suffix = true -> Text.endsWith (String c t) suffix = true.
Proof.
  exact (endsWith_append (String c EmptyString) t suffix).
Qed.

Ltac ends_with_pdf :=
  repeat first [reflexivity | apply endsWith_cons | apply endsWith_append].

Lemma virtualPath_endsWith (parts : list string) (fileName p : string) :
  virtualPath parts fileName = Some p -> Text.endsWith p ".pdf" = true.
Proof.
  unfold virtualPath.
  destruct (nth_error parts 1); [|discriminate].
  destruct (nth_error parts 2); [|discriminate].
  intros E. injection E as <-. ends_with_pdf.
Qed.

Lemma strategy2_endsWith (api : Api) (lessonId title path : string) :
  strategy2 api lessonId = Some (title, path) -> Text.endsWith path ".pdf" = true.
Proof.
  unfold strategy2.
  destruct (getClasses api) as [classes|]; [|discriminate].
  destruct (classesLoop api lessonId classes _) as [st|]; [|discriminate].
  destruct (foundLevel st && (0 <? List.length (breadcrumbParts st))%nat).
  - destruct (virtualPath (breadcrumbParts st) (fileName st)) as [p|] eqn:V;
      [|discriminate].
    intros E. injection E as _ <-. exact (virtualPath_endsWith _ _ _ V).
  - intros E. injection E as _ <-. ends_with_pdf.
Qed.

(** X19. Whatever the API answers or fails to answer, and for every
    [lessonId], the folder path that the title effect sets ends with
    ".pdf". *)
Theorem folder_path_ends_with_pdf :
  forall (api : Api) (lessonId : string),
    Text.endsWith (snd (titleEffect api lessonId)) ".pdf" = true.
Proof.
  intros api l. unfold titleEffect.
  destruct (Text.truthy l); [|reflexivity].
  unfold fetchTitleAndPath.
  destruct (tryBlock api l) as [[title path]|] eqn:T; [|reflexivity].
  simpl. unfold tryBlock in T.
  destruct (getBreadcrumbs api l) as [b|]; [|discriminate].
  match type of T with
  | match ?v with _ => _ end = _ => destruct v as [parts|]
  end.
  - destruct (virtualPath parts _) as [p|] eqn:V; [|discriminate].
    injection T as _ <-. exact (virtualPath_endsWith _ _ _ V).
  - exact (strategy2_endsWith api l title path T).
Qed.

Lemma removeSpaces_clean (s : string) :
  noneOf Text.isSpace (Text.removeSpaces s).
Proof.
  unfold noneOf. induction s as [|c r IH]; [reflexivity|].
  simpl. destruct (Text.isSpace c) eqn:E; [exact IH|].
  simpl. rewrite E, IH. reflexivity.
Qed.

Lemma lowerChar_not_upper (c : ascii) : isUpperAscii (Text.lowerChar c) = false.
Proof.
  destruct c as [[] [] [] [] [] [] [] []]; reflexivity.
Qed.

Lemma removeSpaces_toLowerCase_no_upper (s : string) :
  noneOf isUpperAscii (Text.removeSpaces (Text.toLowerCase s)).
Proof.
  unfold noneOf. induction s as [|c r IH]; [reflexivity|].
  simpl. destruct (Text.isSpace (Text.lowerChar c)); [exact IH|].
  simpl. rewrite lowerChar_not_upper, IH. reflexivity.
Qed.

Lemma nth_length_pred_last (l : list string) (d : string) :
  nth (List.length l - 1) l d = last l d.
Proof.
  induction l as [|a [|b t] IH]; [reflexivity | reflexivity |].
  replace (List.length (a :: b :: t) - 1)%nat
    with (S (List.length (b :: t) - 1)) by (simpl; lia).
  change (nth (S (List.length (b :: t) - 1)) (a :: b :: t) d)
    with (nth (List.length (b :: t) - 1) (b :: t) d).
  rewrite IH. reflexivity.
Qed.

Lemma last_cons_default (l : list string) :
  forall a d : string, last (a :: l) d = last l a.
Proof.
  induction l as [|b t IH]; intros a d; [reflexivity|].
  change (last (a :: b :: t) d) with (last (b :: t) d).
  rewrite (IH b d), (IH b a). reflexivity.
Qed.

Lemma trim_truthy_nonempty (b : string) :
  Text.truthy (Text.trim b) = true -> Text.truthy b = true.
Proof.
  destruct b; [discriminate | reflexivity].
Qed.

(** X20. When the breadcrumb of the lesson has three or more parts, the
    title is the last part and the folder is built from the first three:
    the first part as it is, the second in lower case without white space,
    the third without white space; the hierarchy of classes is not
    consulted.  The subject folder holds no white space and no letter A to
    Z, the unit folder no white space. *)
Theorem breadcrumb_gives_title_and_folder :
  forall (api : Api) (lessonId b p0 p1 p2 : string) (rest : list string),
    Text.truthy lessonId = true ->
    getBreadcrumbs api lessonId = Some (Some b) ->
    Text.truthy (Text.trim b) = true ->
    breadcrumbSplit b = p0 :: p1 :: p2 :: rest ->
    let title := last rest p2 in
    let subject := Text.removeSpaces (Text.toLowerCase p1) in
    let unit := Text.removeSpaces p2 in
    titleEffect api lessonId =
    (title,
     ("../uploads/" ++ p0 ++ "/" ++ subject ++ "/" ++ unit ++ "/Slides/"
                    ++ title ++ ".pdf")%string)
    /\ noneOf Text.isSpace subject
    /\ noneOf isUpperAscii subject
    /\ noneOf Text.isSpace unit.
Proof.
  intros api l b p0 p1 p2 rest L G T S title subject unit.
  split; [|split; [apply removeSpaces_clean|
                   split; [apply removeSpaces_toLowerCase_no_upper
                          |apply removeSpaces_clean]]].
  unfold titleEffect. rewrite L.
  unfold fetchTitleAndPath, tryBlock. rewrite G.
  rewrite (trim_truthy_nonempty b T), T. cbn [andb]. rewrite S.
  change (2 <=? List.length (p0 :: p1 :: p2 :: rest))%nat with true. cbv iota.
  rewrite nth_length_pred_last. rewrite !last_cons_default.
  reflexivity.
Qed.

Lemma breadcrumb_gives_title_and_folder_witness :
  let api := mkApi (fun _ => Some (Some "Class 10 > Maths Part > Unit One > Lesson A"%string))
                   None (fun _ => None) (fun _ => None) (fun _ => None)
                   (fun _ => None) in
  titleEffect api "lesson1" =
  ("Lesson A", "../uploads/Class 10/mathspart/UnitOne/Slides/Lesson A.pdf")%string.
Proof.
  intros api.
  exact (proj1 (breadcrumb_gives_title_and_folder
                  api "lesson1" "Class 10 > Maths Part > Unit One > Lesson A"
                  "Class 10" "Maths Part" "Unit One" ["Lesson A"%string]
                  eq_refl eq_refl eq_refl eq_refl)).
Defined.

(** X21. When the breadcrumb of the lesson has exactly two parts, reading
    the third part throws: the hierarchy is not searched, and the title and
    the folder are the ones of the [catch] clause, "New Slides" and
    "Default/Slides/New Slides.pdf", whatever the two parts are. *)
Theorem two_part_breadcrumb_falls_back :
  forall (api : Api) (lessonId b p0 p1 : string),
    Text.truthy lessonId = true ->
    getBreadcrumbs api lessonId = Some (Some b) ->
    Text.truthy (Text.trim b) = true ->
    breadcrumbSplit b = [p0; p1] ->
    titleEffect api lessonId =
    ("New Slides", "Default/Slides/New Slides.pdf")%string.
Proof.
  intros api l b p0 p1 L G T S.
  unfold titleEffect. rewrite L.
  unfold fetchTitleAndPath, tryBlock. rewrite G.
  rewrite (trim_truthy_nonempty b T), T. cbn [andb]. rewrite S.
  reflexivity.
Qed.

Lemma two_part_breadcrumb_falls_back_witness :
  let api := mkApi (fun _ => Some (Some "Class 10 > Maths"%string))
                   (Some [mkItem "c1" "Class 10"])
                   (fun _ => Some [mkItem "lesson1" "Maths"])
                   (fun _ => Some []) (fun _ => Some []) (fun _ => Some []) in
  titleEffect api "lesson1" = ("New Slides", "Default/Slides/New Slides.pdf")%string.
Proof.
  intros api.
  exact (two_part_breadcrumb_falls_back api "lesson1" "Class 10 > Maths"
                                        "Class 10" "Maths"
                                        eq_refl eq_refl eq_refl eq_refl).
Defined.

Lemma findById_id (lessonId : string) (items : list Item) (x : Item) :
  findById lessonId items = Some x -> _id x = lessonId.
Proof.
  unfold findById. intros H. apply find_some in H.
  destruct H as [_ E]. apply String.eqb_eq in E. exact E.
Qed.

Section Loops.

Variable api : Api.
Variable lessonId : string.
Hypothesis answers : apiAnswers api.

Lemma lessonsLoop_spec (classItem subject unitItem : Item) (subUnits : list Item) :
  forall st,
    goodSearch api lessonId st ->
    exists st',
      lessonsLoop api lessonId classItem subject unitItem subUnits st = Some st'
      /\ goodSearch api lessonId st'
      /\ (idUnknown api lessonId -> st' = st).
Proof.
  destruct answers as [_ [_ [_ [_ AL]]]].
  induction subUnits as [|su rest IH]; intros st G; simpl.
  - exists st. auto.
  - destruct (getLessonsBySubUnitId api (_id su)) as [lessons|] eqn:E;
      [|exfalso; exact (AL _ E)].
    destruct (findById lessonId lessons) as [lesson|] eqn:F.
    + eexists. split; [reflexivity|]. split.
      * intros _. simpl. split; [lia|]. split; [reflexivity|].
        exists lesson. split; [|reflexivity].
        exists (_id su), lessons. split; [right; right; exact E | exact F].
      * intros [_ [_ U]]. rewrite (U _ _ E) in F. discriminate F.
    + apply IH. exact G.
Qed.

Lemma unitsLoop_spec (classItem subject : Item) (units : list Item) :
  forall st,
    goodSearch api lessonId st ->
    exists st',
      unitsLoop api lessonId classItem subject units st = Some st'
      /\ goodSearch api lessonId st'
      /\ (idUnknown api lessonId -> st' = st).
Proof.
  destruct answers as [_ [_ [_ [AS _]]]].
  induction units as [|u rest IH]; intros st G; simpl.
  - exists st. auto.
  - destruct (getSubUnitsByUnitId api (_id u)) as [subUnits|] eqn:E;
      [|exfalso; exact (AS _ E)].
    destruct (findById lessonId subUnits) as [subUnit|] eqn:F.
    + eexists. split; [reflexivity|]. split.
      * intros _. simpl. split; [lia|]. split; [reflexivity|].
        exists subUnit. split; [|reflexivity].
        exists (_id u), subUnits. split; [right; left; exact E | exact F].
      * intros [_ [U _]]. rewrite (U _ _ E) in F. discriminate F.
    + assert (H : exists st1,
                 (if negb (foundLevel st)
                  then lessonsLoop api lessonId classItem subject u subUnits st
                  else Some st) = Some st1
                 /\ goodSearch api lessonId st1
                 /\ (idUnknown api lessonId -> st1 = st)).
      { destruct (negb (foundLevel st)).
        - apply lessonsLoop_spec. exact G.
        - exists st. auto. }
      destruct H as [st1 [E1 [G1 U1]]]. rewrite E1.
      destruct (IH st1 G1) as [st' [E' [G' U']]].
      exists st'. split; [exact E'|]. split; [exact G'|].
      intros K. rewrite (U' K). exact (U1 K).
Qed.

Lemma subjectsLoop_spec (classItem : Item) (subjects : list Item) :
  forall st,
    goodSearch api lessonId st ->
    exists st',
      subjectsLoop api lessonId classItem subjects st = Some st'
      /\ goodSearch api lessonId st'
      /\ (idUnknown api lessonId -> st' = st).
Proof.
  destruct answers as [_ [_ [AU _]]].
  induction subjects as [|s rest IH]; intros st G; simpl.
  - exists st. auto.
  - destruct (getUnitsBySubjectId api (_id s)) as [units|] eqn:E;
      [|exfalso; exact (AU _ E)].
    destruct (findById lessonId units) as [unit|] eqn:F.
    + eexists. split; [reflexivity|]. split.
      * intros _. simpl. split; [lia|]. split; [reflexivity|].
        exists unit. split; [|reflexivity].
        exists (_id s), units. split; [left; exact E | exact F].
      * intros [U _]. rewrite (U _ _ E) in F. discriminate F.
    + destruct (unitsLoop_spec classItem s units st G) as [st1 [E1 [G1 U1]]].
      rewrite E1. destruct (foundLevel st1) eqn:Fd.
      * exists st1. auto.
      * destruct (IH st1 G1) as [st' [E' [G' U']]].
        exists st'. split; [exact E'|]. split; [exact G'|].
        intros K. rewrite (U' K). exact (U1 K).
Qed.

Lemma classesLoop_spec (classes : list Item) :
  forall st,
    goodSearch api lessonId st ->
    exists st',
      classesLoop api lessonId classes st = Some st'
      /\ goodSearch api lessonId st'
      /\ (idUnknown api lessonId -> st' = st).
Proof.
  destruct answers as [_ [AS _]].
  induction classes as [|c rest IH]; intros st G; simpl.
  - exists st. auto.
  - destruct (getSubjectsByClassId api (_id c)) as [subjects|] eqn:E;
      [|exfalso; exact (AS _ E)].
    destruct (subjectsLoop_spec c subjects st G) as [st1 [E1 [G1 U1]]].
    rewrite E1. destruct (foundLevel st1) eqn:Fd.
    + exists st1. auto.
    + destruct (IH st1 G1) as [st' [E' [G' U']]].
      exists st'. split; [exact E'|]. split; [exact G'|].
      intros K. rewrite (U' K). exact (U1 K).
Qed.

End Loops.



(** X23. When no call of the hierarchy API fails and no unit, sub-unit or
    lesson has the id, the title is "Slides_" followed by the last four
    characters of [lessonId] (all of it when it is shorter), in the folder
    "../uploads/Class/default/Unit/Slides/". *)
Theorem unknown_lesson_gets_fallback_title :
  forall (api : Api) (lessonId : string),
    apiAnswers api ->
    idUnknown api lessonId ->
    strategy2 api lessonId =
    Some (("Slides_" ++ Text.sliceLast 4 lessonId)%string,
          ("../uploads/Class/default/Unit/Slides/"
             ++ ("Slides_" ++ Text.sliceLast 4 lessonId) ++ ".pdf")%string).
Proof.
  intros api l A U. unfold strategy2.
  destruct (getClasses api) as [classes|] eqn:C;
    [|exfalso; destruct A as [A _]; exact (A C)].
  assert (G0 : goodSearch api l (mkSearch false [] "New Slides")).
  { intros H. discriminate H. }
  destruct (classesLoop_spec api l A classes _ G0) as [st [E [_ K]]].
  rewrite E, (K U). reflexivity.
Qed.

Lemma unknown_lesson_gets_fallback_title_witness :
  let api := mkApi (fun _ => Some None)
                   (Some [mkItem "c1" "Class 10"])
                   (fun _ => Some [mkItem "s1" "Maths Part"])
                   (fun _ => Some [mkItem "u1" "Unit One"])
                   (fun _ => Some [mkItem "su1" "Sub A"])
                   (fun _ => Some [mkItem "l1" "Lesson A"]) in
  strategy2 api "64f0c2a9zz17" =
  Some ("Slides_zz17", "../uploads/Class/default/Unit/Slides/Slides_zz17.pdf")%string.
Proof.
  intros api.
  apply (unknown_lesson_gets_fallback_title api "64f0c2a9zz17").
  - unfold apiAnswers. simpl. repeat split; intros; discriminate.
  - unfold idUnknown. simpl.
    repeat split; intros k items E; injection E as <-; reflexivity.
Defined.

End TitleFacts.

(** ** More on the upload form and the source of the slides *)

Section FormFacts.

Import Upload.

(** X24. The form can be submitted before the title effect has answered:
    a PDF selected and submitted on a fresh form is uploaded under the
    placeholder title "Loading title..." with an empty folder in its
    metadata. *)
Theorem early_submit_sends_placeholder_title :
  forall (lessonId : string) (f : File),
    fileType f = "application/pdf"%string ->
    inFlight (run (initial lessonId) [FileChange (Some f); Submit]) =
    [[("file"%string, FileValue f);
      ("lessonId"%string, TextValue lessonId);
      ("type"%string, TextValue "slide");
      ("title"%string, TextValue "Loading title...");
      ("metadata"%string, TextValue (metadata ""))]].
Proof.
  intros l f T.
  unfold run. cbn [fold_left step]. unfold handleFileChange.
  rewrite T. reflexivity.
Qed.

Lemma early_submit_sends_placeholder_title_witness :
  let f := mkFile "slides.pdf" "application/pdf" 1024 in
  List.length (inFlight (run (initial "lesson1") [FileChange (Some f); Submit])) = 1%nat.
Proof.
  intros f.
  rewrite (early_submit_sends_placeholder_title "lesson1" f eq_refl).
  reflexivity.
Defined.

End FormFacts.

Section SourceFacts.

Import Source.

(** X25. In the fullscreen viewer only content with a file path gets its
    slides shown, from the file endpoint of the content.  Content that
    carries its PDF as embedded data only stays on the loading placeholder:
    the hook is called inside the effect, the call throws and is logged, and
    [pdfUrl] is never set. *)
Theorem only_file_content_shows_slides :
  forall (content : Content),
    let st := loadPdfFromFile content (mkState None []) in
    contentArea st =
    (if truthy (filePath content)
     then SlidePdfViewer ("/api/content/" ++ _id content ++ "/file")
     else LoadingSlides)
    /\ List.length (console st) =
       (if negb (truthy (filePath content))
           && truthy (body content)
           && Blob.startsWith (match body content with Some b => b | None => EmptyString end)
                              Blob.pdfPrefix
        then 1%nat else 0%nat).
Proof.
  intros content st. unfold st, loadPdfFromFile.
  destruct (truthy (filePath content)); [split; reflexivity|].
  cbn [negb andb].
  destruct (truthy (body content)
            && Blob.startsWith (match body content with Some b => b | None => "" end)
                               Blob.pdfPrefix)%bool; split; reflexivity.
Qed.

End SourceFacts.

(** ** The API entry point *)

Section ApiFacts.

Import Api.

Lemma serverlessHandler_warm (env : Env) (st : State) :
  dbConnected st = true -> routesMounted st = true ->
  serverlessHandler env st = (Delegated, st).
Proof.
  intros D R. unfold serverlessHandler, connectToDatabase, ensureRoutes.
  rewrite D, R. reflexivity.
Qed.

(** X27. Once the process is connected and its routes are mounted, every
    later request is handed to the Express app and leaves the state as it
    is, whatever the environment has become: the connection and the routes
    are cached, [mongoose.connect] is not called and nothing is mounted
    again. *)
Theorem warm_process_delegates :
  forall (envs : list Env) (st : State),
    dbConnected st = true -> routesMounted st = true ->
    serve envs st = (repeat Delegated (List.length envs), st).
Proof.
  induction envs as [|env rest IH]; intros st D R; [reflexivity|].
  simpl. rewrite (serverlessHandler_warm env st D R).
  rewrite (IH st D R). reflexivity.
Qed.

Lemma warm_process_delegates_witness :
  let st := mkState true true [Router 1] 1 in
  let down := mkEnv None (Js.Rejected (mkErr "MongooseServerSelectionError" "timed out"))
                    (Js.Rejected (mkErr "Error" "Cannot find module"))
                    (Js.Rejected (mkErr "Error" "Cannot find module"))
                    (Js.Rejected (mkErr "Error" "Cannot find module"))
                    (mkErr "TypeError" "not a function") in
  serve [down; down] st = ([Delegated; Delegated], st).
Proof.
  intros st down.
  exact (warm_process_delegates [down; down] st eq_refl eq_refl).
Defined.

(** X28. A request to a process that is not connected, in an environment
    without [MONGODB_URI] (unset or empty), is answered with status 500,
    the error "Server error" and the message
    "Error: MONGODB_URI is not defined"; [mongoose.connect] is not called,
    no route is loaded and the state is unchanged. *)
Theorem missing_uri_answers_500 :
  forall (env : Env) (st : State),
    dbConnected st = false ->
    mongodbUri env = None \/ mongodbUri env = Some EmptyString ->
    serverlessHandler env st =
    (Json 500 "Server error" "Error: MONGODB_URI is not defined", st).
Proof.
  intros env st D [U|U]; unfold serverlessHandler, connectToDatabase;
    rewrite D, U; reflexivity.
Qed.

Lemma missing_uri_answers_500_witness :
  let env := mkEnv None (Js.Fulfilled tt)
                   (Js.Fulfilled (mkMod NotAFunction (Some (Router 1))))
                   (Js.Rejected (mkErr "Error" "Cannot find module"))
                   (Js.Rejected (mkErr "Error" "Cannot find module"))
                   (mkErr "TypeError" "not a function") in
  serverlessHandler env initial =
  (Json 500 "Server error" "Error: MONGODB_URI is not defined", initial).
Proof.
  intros env.
  apply (missing_uri_answers_500 env initial eq_refl).
  left. reflexivity.
Defined.

Lemma serverlessHandler_consistent (env : Env) (st : State) :
  consistent st ->
  consistent (snd (serverlessHandler env st))
  /\ (dbConnected st = true -> dbConnected (snd (serverlessHandler env st)) = true)
  /\ (routesMounted st = true ->
      routesMounted (snd (serverlessHandler env st)) = true)
  /\ (fst (serverlessHandler env st) = Delegated ->
      dbConnected (snd (serverlessHandler env st)) = true
      /\ routesMounted (snd (serverlessHandler env st)) = true)
  /\ (fst (serverlessHandler env st) = Delegated
      \/ exists m, fst (serverlessHandler env st) = Json 500 "Server error" m).
Proof.
  unfold consistent. intros [CT CF].
  unfold serverlessHandler, connectToDatabase, ensureRoutes, appUse.
  destruct st as [db rm ms cc]. simpl in *.
  destruct db.
  - destruct rm.
    + destruct (CT eq_refl) as [_ L]. simpl.
      repeat match goal with |- _ /\ _ => split end;
        intros; auto; try discriminate.
    + rewrite (CF eq_refl).
      destruct (loadApiRoutes env); simpl;
        repeat match goal with |- _ /\ _ => split end;
        intros; auto; try discriminate;
        try (right; eexists; reflexivity).
  - assert (R : rm = false).
    { destruct rm; [|reflexivity]. destruct (CT eq_refl) as [X _]. discriminate X. }
    subst rm. rewrite (CF eq_refl).
    destruct (mongodbUri env) as [uri|];
      [destruct (uri =? "")%string; [|destruct (connect env)]|]; simpl;
      try (destruct (loadApiRoutes env); simpl);
      repeat match goal with |- _ /\ _ => split end;
      intros; auto; try discriminate;
      try (right; eexists; reflexivity).
Qed.

Lemma serve_consistent (envs : list Env) :
  forall st,
    consistent st ->
    consistent (snd (serve envs st))
    /\ (dbConnected st = true -> dbConnected (snd (serve envs st)) = true)
    /\ (routesMounted st = true -> routesMounted (snd (serve envs st)) = true)
    /\ (In Delegated (fst (serve envs st)) ->
        dbConnected (snd (serve envs st)) = true
        /\ routesMounted (snd (serve envs st)) = true)
    /\ Forall (fun r => r = Delegated \/ exists m, r = Json 500 "Server error" m)
              (fst (serve envs st)).
Proof.
  induction envs as [|env rest IH]; intros st C.
  - simpl. split; [exact C|]. split; [auto|]. split; [auto|].
    split; [intros []|constructor].
  - simpl.
    destruct (serverlessHandler_consistent env st C) as [C1 [D1 [R1 [G1 F1]]]].
    destruct (serverlessHandler env st) as [r st1]. simpl in *.
    destruct (IH st1 C1) as [C2 [D2 [R2 [G2 F2]]]].
    destruct (serve rest st1) as [rs st2]. simpl in *.
    split; [exact C2|]. split; [auto|]. split; [auto|]. split.
    + intros [H|H].
      * destruct (G1 H) as [X Y]. auto.
      * exact (G2 H).
    + constructor; [exact F1 | exact F2].
Qed.

(** X29. For requests handled one after the other by a fresh process,
    whatever their environments: every request is either handed to the
    Express app or answered with status 500 and the error "Server error";
    the routes are mounted at most once, and only on a connected process;
    and once a request has been handed to the app, the process is connected
    and its routes are mounted. *)
Theorem api_mounts_routes_once :
  forall (envs : list Env),
    let responses := fst (serve envs initial) in
    let st := snd (serve envs initial) in
    (List.length (mounted st) <= 1)%nat
    /\ (routesMounted st = true <-> List.length (mounted st) = 1%nat)
    /\ (routesMounted st = true -> dbConnected st = true)
    /\ (In Delegated responses -> dbConnected st = true /\ routesMounted st = true)
    /\ Forall (fun r => r = Delegated \/ exists m, r = Json 500 "Server error" m)
              responses.
Proof.
  intros envs responses st.
  assert (C0 : consistent initial).
  { unfold consistent, initial. simpl. split; [discriminate | reflexivity]. }
  destruct (serve_consistent envs initial C0) as [[CT CF] [_ [_ [G F]]]].
  fold st in CT, CF, G. fold responses in F, G.
  destruct (routesMounted st) eqn:R.
  - destruct (CT eq_refl) as [D L]. rewrite L.
    split; [lia|]. split; [tauto|]. split; [auto|]. split; [exact G | exact F].
  - rewrite (CF eq_refl). simpl.
    split; [lia|]. split; [split; intros H; discriminate H|].
    split; [intros H; discriminate H|]. split; [exact G | exact F].
Qed.

End ApiFacts.
